(** * NuvlaEdge agent core: worker registry, telemetry pipeline, traffic
    counters and the periodic-action loop

    A shallow embedding of the Python sources of the agent
    ([nuvlaedge/agent/worker/manager.py], [nuvlaedge/agent/workers/telemetry.py],
    [nuvlaedge/agent/__init__.py]) and of the behaviour pinned down by the
    repository's tests, followed by the properties established about them.

    Conventions.  A Python object that a method mutates is passed in and
    returned (explicit state passing).  A call that may raise returns an
    [outcome].  Dictionaries keyed by strings whose iteration order is
    irrelevant are [gmap string _]; [monitor_list], whose iteration order
    decides which monitor writes a field last, is an insertion-ordered
    association list.  Python [float] durations are exact rationals. *)

From Stdlib Require Import Ascii QArith Qminmax Lqa.
From stdpp Require Import base gmap strings list.

Open Scope string_scope.
Open Scope list_scope.

(** ** Python values, exceptions and call outcomes *)

Module py.

(** The values a telemetry field can hold once dumped to a dictionary. *)
#[local] Unset Elimination Schemes.
Inductive PyVal :=
| VNone
| VBool (b : bool)
| VInt (z : Z)
| VStr (s : string)
| VList (l : list PyVal)
| VDict (d : list (string * PyVal)).
#[local] Set Elimination Schemes.

(** Python truthiness, as used by [if v] in a comprehension. *)
Definition truthy (v : PyVal) : bool :=
  match v with
  | VNone => false
  | VBool b => b
  | VInt z => negb (z =? 0)%Z
  | VStr s => negb (String.eqb s "")
  | VList l => negb (bool_decide (length l = 0))
  | VDict d => negb (bool_decide (length d = 0))
  end.

(** The exceptions that occur in the modelled code. *)
Inductive PyExc :=
| Full                (* queue.Full *)
| Empty               (* queue.Empty *)
| ValidationError.    (* pydantic.ValidationError *)

(** How a method call that returns nothing ends: it returns, or an
    exception propagates to the caller. *)
Inductive outcome :=
| Returned
| Raised (e : PyExc).

(** Records passed to the [logging] module, by level. *)
Inductive LogRecord :=
| LogDebug (msg : string)
| LogInfo (msg : string)
| LogWarning (msg : string)
| LogException (msg : string).

End py.

(** ** [queue.Queue] of the Python standard library, non-blocking calls *)

Module queue.

Record Queue (A : Type) := mkQueue {
  maxsize : Z;        (* [maxsize <= 0] means unbounded *)
  items : list A      (* oldest first *)
}.
Arguments mkQueue {A} maxsize items.
Arguments maxsize {A} q.
Arguments items {A} q.

Definition qsize {A} (q : Queue A) : Z := Z.of_nat (length (items q)).

(** [Queue(maxsize)] *)
Definition new {A} (maxsize : Z) : Queue A := mkQueue maxsize [].

(** [0 < maxsize <= qsize] *)
Definition full {A} (q : Queue A) : bool :=
  (0 <? maxsize q)%Z && (maxsize q <=? qsize q)%Z.

(** [q.put(item, block=False)]: raises [Full] when the queue is bounded and
    holds [maxsize] items, appends otherwise. *)
Definition put {A} (q : Queue A) (item : A) : py.PyExc + Queue A :=
  if full q then inl py.Full
  else inr (mkQueue (maxsize q) (items q ++ [item])).

(** [q.get(block=False)]: raises [Empty] on an empty queue, removes and
    returns the oldest item otherwise. *)
Definition get {A} (q : Queue A) : py.PyExc + (A * Queue A) :=
  match items q with
  | [] => inl py.Empty
  | x :: rest => inr (x, mkQueue (maxsize q) rest)
  end.

(** A bounded queue never holds more than [maxsize] items. *)
Definition wf {A} (q : Queue A) : Prop :=
  (0 < maxsize q)%Z -> (qsize q <= maxsize q)%Z.

(** What another thread sharing the queue may do between two calls of this
    thread: a consumer's non-blocking [get] or a producer's non-blocking
    [put].  A call that raises in the other thread leaves the queue as it
    was. *)
Inductive ThreadOp (A : Type) :=
| OtherGet
| OtherPut (item : A).
Arguments OtherGet {A}.
Arguments OtherPut {A} item.

Definition other_thread {A} (q : Queue A) (op : ThreadOp A) : Queue A :=
  match op with
  | OtherGet => match get q with inr (_, q') => q' | inl _ => q end
  | OtherPut item => match put q item with inr q' => q' | inl _ => q end
  end.

Definition interleave {A} (ops : list (ThreadOp A)) (q : Queue A) : Queue A :=
  fold_left other_thread ops q.

End queue.

(** ** [WorkerManager] (nuvlaedge/agent/worker/manager.py) *)

Module manager.

(** What [add_worker] reads of its [worker_type] argument: the name of the
    argument's own type, [worker_type.__class__.__name__].  For a class
    object that type is the metaclass ([type] unless the class declares
    another one); for an instance it is the instance's class. *)
Inductive PyObject :=
| ClassObject (__name__ : string) (metaclass : string)
| InstanceOf (class_name : string).

(** [o.__class__.__name__] *)
Definition __class____name__ (o : PyObject) : string :=
  match o with
  | ClassObject _ metaclass => metaclass
  | InstanceOf class_name => class_name
  end.

(** A class written [class C: ...] or [class C(Base): ...] with no
    metaclass of its own. *)
Definition plain_class (o : PyObject) : Prop :=
  exists n, o = ClassObject n "type".

(** [init_params: tuple[tuple, dict]] *)
Definition InitParams : Type := list py.PyVal * list (string * py.PyVal).

Section WithAgentWorker.

(** [AgentWorker] (nuvlaedge/agent/worker/worker.py) is not among the
    sources: its instances and its constructor are taken as given. *)
Variable AgentWorker : Type.
Variable new_AgentWorker :
  forall (period : Z) (worker_type : PyObject) (init_params : InitParams)
         (actions : list string), AgentWorker.

Record WorkerManager := mkWorkerManager {
  registered_workers : gmap string AgentWorker
}.

(** [WorkerManager()] *)
Definition new_WorkerManager : WorkerManager := mkWorkerManager ∅.

(** What one call of [add_worker] leaves behind: the manager, the value the
    call evaluates to, and the records given to the logger. *)
Record Call := mkCall {
  self_after : WorkerManager;
  result : py.PyVal;
  logged : list py.LogRecord
}.

(** [WorkerManager.add_worker].  Neither branch has a [return]: the call
    evaluates to [None]. *)
Definition add_worker (self : WorkerManager) (period : Z)
    (worker_type : PyObject) (init_params : InitParams)
    (actions : list string) : Call :=
  let key := __class____name__ worker_type in
  match registered_workers self !! key with
  | None =>
      mkCall
        (mkWorkerManager
           (<[key := new_AgentWorker period worker_type init_params actions]>
              (registered_workers self)))
        py.VNone []
  | Some _ =>
      mkCall self py.VNone
        [py.LogInfo ("Worker " +:+ key +:+ " already registered")]
  end.

(** A series of [add_worker] calls, one per class, with the same period,
    parameters and actions. *)
Definition add_workers (self : WorkerManager) (period : Z)
    (init_params : InitParams) (actions : list string)
    (worker_types : list PyObject) : WorkerManager :=
  fold_left
    (fun m t => self_after (add_worker m period t init_params actions))
    worker_types self.

End WithAgentWorker.

Arguments registered_workers {AgentWorker} w.
Arguments mkWorkerManager {AgentWorker} registered_workers.
Arguments new_WorkerManager {AgentWorker}.
Arguments self_after {AgentWorker} c.
Arguments result {AgentWorker} c.
Arguments logged {AgentWorker} c.
Arguments add_worker {AgentWorker} new_AgentWorker self period worker_type
  init_params actions.
Arguments add_workers {AgentWorker} new_AgentWorker self period init_params
  actions worker_types.

End manager.

(** ** [Telemetry] (nuvlaedge/agent/workers/telemetry.py) *)

Module telemetry.

(** *** The time stamp:
    [datetime.utcnow().isoformat().split('.')[0] + 'Z'] *)

(** A naive [datetime], as [datetime.utcnow()] returns it. *)
Record datetime := mkDatetime {
  year : N;
  month : N;
  day : N;
  hour : N;
  minute : N;
  second : N;
  microsecond : N
}.

(** The ranges the [datetime] class enforces. *)
Definition valid_datetime (t : datetime) : Prop :=
  (1 <= year t <= 9999 /\ 1 <= month t <= 12 /\ 1 <= day t <= 31 /\
   hour t < 24 /\ minute t < 60 /\ second t < 60 /\
   microsecond t < 1000000)%N.

(** The two readings agree down to the second. *)
Definition same_second (t1 t2 : datetime) : Prop :=
  year t1 = year t2 /\ month t1 = month t2 /\ day t1 = day t2 /\
  hour t1 = hour t2 /\ minute t1 = minute t2 /\ second t1 = second t2.

(** [t1 < t2]: valid readings compare field by field, the year first. *)
Definition clock_key (t : datetime) : N :=
  ((((((year t * 13 + month t) * 32 + day t) * 24 + hour t) * 60
      + minute t) * 60 + second t) * 1000000 + microsecond t)%N.
Definition earlier (t1 t2 : datetime) : Prop :=
  (clock_key t1 < clock_key t2)%N.

(** The decimal digit of the units of [n]. *)
Definition digit (n : N) : ascii := ascii_of_N (48 + n mod 10).

(** ["%02d"], ["%04d"] and ["%06d"], on numbers that fit the width. *)
Definition pad2 (n : N) : string :=
  String (digit (n / 10)) (String (digit n) "").
Definition pad4 (n : N) : string :=
  String (digit (n / 1000)) (String (digit (n / 100)) (pad2 n)).
Definition pad6 (n : N) : string :=
  String (digit (n / 100000)) (String (digit (n / 10000)) (pad4 n)).

(** The part of [isoformat()] down to the second:
    [YYYY-MM-DDTHH:MM:SS]. *)
Definition isoformat_seconds (t : datetime) : string :=
  pad4 (year t) +:+ "-" +:+ pad2 (month t) +:+ "-" +:+ pad2 (day t) +:+ "T"
  +:+ pad2 (hour t) +:+ ":" +:+ pad2 (minute t) +:+ ":" +:+ pad2 (second t).

(** [datetime.isoformat()] of a naive datetime: the fraction [.ffffff] is
    printed only when [microsecond] is not zero. *)
Definition isoformat (t : datetime) : string :=
  isoformat_seconds t +:+
  (if (microsecond t =? 0)%N then "" else "." +:+ pad6 (microsecond t)).

(** [s.split(sep)[0]] for a one-character separator: the text before the
    first [sep], all of [s] when there is none. *)
Fixpoint split_head (sep : ascii) (s : string) : string :=
  match s with
  | EmptyString => EmptyString
  | String c rest =>
      if Ascii.eqb c sep then EmptyString else String c (split_head sep rest)
  end.

(** The value [run] gives to [current_time]. *)
Definition current_time_stamp (now : datetime) : string :=
  split_head "."%char (isoformat now) +:+ "Z".

(** *** Payload, monitors and the telemetry object *)

(** A dictionary of fields, as the monitors fill it ([temp_dict]) and as a
    model is dumped. *)
Abbreviation Report := (gmap string py.PyVal) (only parsing).

(** [TelemetryPayloadAttributes]: [current_time] and the other declared
    fields, those that are set. *)
Record TelemetryPayloadAttributes := mkPayload {
  current_time : option string;
  attributes : Report
}.

(** [TelemetryPayloadAttributes()] *)
Definition empty_payload : TelemetryPayloadAttributes := mkPayload None ∅.

(** How [populate_nb_report(temp_dict)] ends: it returns or raises, in both
    cases leaving [temp_dict] with what it wrote so far. *)
Inductive Populated :=
| Done (temp_dict : Report)
| Failed (temp_dict : Report).

(** Modelled from the spec: the class [Monitor]
    (nuvlaedge/agent/workers/monitor/__init__.py) is not among the sources.
    The fields are those that telemetry.py reads of a monitor, and
    [error_count], the count of failures that section 3 of the spec gives
    every supervised unit. *)
Record Monitor := mkMonitor {
  name : string;
  is_thread : bool;
  alive : bool;                       (* [Thread.is_alive()] *)
  updated : bool;
  enabled_monitor : bool;
  error_count : nat;
  populate_nb_report : Report -> Populated
}.

(** [Thread.is_alive()] *)
Definition is_alive (m : Monitor) : bool := alive m.

(** [Thread.start()] *)
Definition start (m : Monitor) : Monitor :=
  mkMonitor (name m) (is_thread m) true (updated m) (enabled_monitor m)
    (error_count m) (populate_nb_report m).

(** Modelled from the spec: [is_thread_creation_needed]
    (nuvlaedge/agent/common/thread_handler.py) is not among the sources.
    Section 4.2: a threaded unit is recreated if its execution context is
    not alive, which is logged at level info with the message passed as
    [log_not_alive]. *)
Definition is_thread_creation_needed (monitor_name : string)
    (it_monitor : Monitor) : bool :=
  negb (is_alive it_monitor).

(** An attribute of [EdgeStatus]: a pydantic model, given by its
    [model_dump(exclude_none=True, by_alias=True)], or any other value. *)
Inductive EdgeValue :=
| Model (dump : Report)
| Plain (v : py.PyVal).

(** Modelled from the spec: [StatusReport] and [NuvlaEdgeStatusHandler]
    (nuvlaedge/agent/common/status_handler.py) are not among the sources.
    Section 3: component name, lifecycle state, timestamp. *)
Inductive LifecycleState := STARTING | RUNNING | FAILED.
Record StatusReport := mkStatusReport {
  origin_module : string;
  module_status : LifecycleState;
  date : datetime
}.

Record Telemetry := mkTelemetry {
  _local_telemetry : TelemetryPayloadAttributes;
  report_channel : queue.Queue TelemetryPayloadAttributes;
  status_channel : list StatusReport;
  edge_status : list (string * EdgeValue);
  monitor_list : list (string * Monitor);
  (* the records of level info and above given to the module's [logger],
     oldest first; debug records are left out *)
  log : list py.LogRecord
}.

Definition set_local_telemetry (self : Telemetry)
    (p : TelemetryPayloadAttributes) : Telemetry :=
  mkTelemetry p (report_channel self) (status_channel self)
    (edge_status self) (monitor_list self) (log self).

Definition set_report_channel (self : Telemetry)
    (q : queue.Queue TelemetryPayloadAttributes) : Telemetry :=
  mkTelemetry (_local_telemetry self) q (status_channel self)
    (edge_status self) (monitor_list self) (log self).

Definition set_monitor_list (self : Telemetry)
    (ml : list (string * Monitor)) : Telemetry :=
  mkTelemetry (_local_telemetry self) (report_channel self)
    (status_channel self) (edge_status self) ml (log self).

Definition logger (self : Telemetry) (r : py.LogRecord) : Telemetry :=
  mkTelemetry (_local_telemetry self) (report_channel self)
    (status_channel self) (edge_status self) (monitor_list self)
    (log self ++ [r]).

(** Modelled from the spec: [NuvlaEdgeStatusHandler.running(channel, name)]
    publishes a RUNNING report on the status channel (section 4.3), with no
    acknowledgment (section 6). *)
Definition status_running (now : datetime) (self : Telemetry) : Telemetry :=
  mkTelemetry (_local_telemetry self) (report_channel self)
    (status_channel self ++ [mkStatusReport "Telemetry" RUNNING now])
    (edge_status self) (monitor_list self) (log self).

(** *** Insertion-ordered dictionaries *)

(** [d.get(k)] *)
Fixpoint dict_get {V} (d : list (string * V)) (k : string) : option V :=
  match d with
  | [] => None
  | (k', v) :: rest => if decide (k' = k) then Some v else dict_get rest k
  end.

(** [d[k] = v]: an existing key keeps its place, a new one goes last. *)
Fixpoint dict_set {V} (d : list (string * V)) (k : string) (v : V)
    : list (string * V) :=
  match d with
  | [] => [(k, v)]
  | (k', v') :: rest =>
      if decide (k' = k) then (k, v) :: rest
      else (k', v') :: dict_set rest k v
  end.

Definition keys {V} (d : list (string * V)) : list string := map fst d.
Definition values {V} (d : list (string * V)) : list V := map snd d.

(** *** Strings, as [__init__] and [_initialize_monitors] use them *)

(** [c in s] for a one-character [c] *)
Fixpoint contains_char (c : ascii) (s : string) : bool :=
  match s with
  | EmptyString => false
  | String c' rest => Ascii.eqb c' c || contains_char c rest
  end.

(** [s.replace(c, '')] for a one-character [c] *)
Fixpoint remove_char (c : ascii) (s : string) : string :=
  match s with
  | EmptyString => EmptyString
  | String c' rest =>
      if Ascii.eqb c' c then remove_char c rest
      else String c' (remove_char c rest)
  end.

(** [s.split(sep)] for a one-character separator: the pieces between the
    separators, empty pieces included; one empty piece for the empty
    string. *)
Fixpoint split_on (sep : ascii) (s : string) : list string :=
  match s with
  | EmptyString => [EmptyString]
  | String c rest =>
      if Ascii.eqb c sep then EmptyString :: split_on sep rest
      else match split_on sep rest with
           | piece :: pieces => String c piece :: pieces
           | [] => [String c EmptyString]
           end
  end.

(** [s.rsplit(sep, 1)[0]]: the text before the last separator, all of [s]
    when there is none. *)
Fixpoint rsplit_head (sep : ascii) (s : string) : string :=
  match s with
  | EmptyString => EmptyString
  | String c rest =>
      if contains_char sep rest then String c (rsplit_head sep rest)
      else if Ascii.eqb c sep then EmptyString
      else String c rest
  end.

(** The value [__init__] gives to [self.excluded_monitors]:
    [excluded_monitors.replace("'", "").split(',') if excluded_monitors
    else []], for an argument that is [None] or a string. *)
Definition parse_excluded_monitors (excluded_monitors : option string)
    : list string :=
  match excluded_monitors with
  | None => []
  | Some s =>
      if String.eqb s "" then []
      else split_on ","%char (remove_char "'"%char s)
  end.

(** The double quote of the messages [Monitor "name" excluded]. *)
Definition dquote : string := String (ascii_of_N 34) EmptyString.

(** A monitor whose [populate_nb_report] is a dictionary update with the
    fields [contribution]: [temp_dict.update(contribution)]. *)
Definition writes (m : Monitor) (contribution : Report) : Prop :=
  forall temp_dict,
    populate_nb_report m temp_dict = Done (contribution ∪ temp_dict).

(** The fields [TelemetryPayloadAttributes] declares. *)
Definition payload_fields : list string :=
  ["status"; "status_notes"; "current_time";
   "components"; "nuvlabox_api_endpoint"; "nuvlabox_engine_version";
   "installation_parameters"; "host_user_home";
   "resources"; "last_boot"; "gpio_pins"; "vulnerabilities";
   "inferred_location"; "network"; "temperatures";
   "operating_system"; "architecture"; "ip"; "hostname";
   "docker_server_version";
   "node_id"; "cluster_id"; "cluster_managers"; "cluster_nodes";
   "cluster_node_role"; "cluster_node_labels";
   "swarm_node_cert_expiry_date"; "cluster_join_address"; "orchestrator";
   "container_plugins"; "kubelet_version";
   "coe_resources"].

Section WithCollaborators.

(** Parts of the repository that [Telemetry] calls and that are not among
    the sources. *)

(** [get_monitor(monitor_name)(monitor_name, self, True)]: the constructor
    of the monitor class registered under that name. *)
Variable get_monitor : string -> string -> Telemetry -> bool -> Monitor.

(** [it_monitor.run_update_data(monitor_name=...)], which updates the
    monitor in place. *)
Variable run_update_data : string -> Monitor -> Monitor.

(** [TelemetryPayloadAttributes.model_validate(temp_dict)]; [None] when it
    raises a validation error. *)
Variable model_validate : Report -> option TelemetryPayloadAttributes.

(** [NuvlaEdgeStaticModel.update(data)] *)
Variable update :
  TelemetryPayloadAttributes -> Report -> TelemetryPayloadAttributes.

(** *** [_check_monitors_health] *)

(** The body of the loop, for one item of [monitor_list]. *)
Definition check_monitor (self : Telemetry) (item : string * Monitor)
    : Telemetry :=
  let '(monitor_name, it_monitor) := item in
  if is_thread it_monitor then
    if is_thread_creation_needed monitor_name it_monitor then
      let self :=
        logger self (py.LogInfo ("Recreating " +:+ monitor_name +:+ " thread.")) in
      let monitor := get_monitor monitor_name monitor_name self true in
      let monitor := start monitor in
      set_monitor_list self (dict_set (monitor_list self) monitor_name monitor)
    else self
  else
    set_monitor_list self
      (dict_set (monitor_list self) monitor_name
         (run_update_data monitor_name it_monitor)).

(** The loop visits the items of [monitor_list]; a pass replaces only the
    value of the key it is visiting, so the items are those the dictionary
    held when the loop started.  The debug records of the method, and the
    durations the last one prints, are left out. *)
Definition _check_monitors_health (self : Telemetry) : Telemetry :=
  fold_left check_monitor (monitor_list self) self.

(** *** [_collect_monitor_metrics] *)

(** The body of the loop: [try] / [except Exception] around one monitor. *)
Definition collect_monitor (st : Report * list py.LogRecord)
    (it_monitor : Monitor) : Report * list py.LogRecord :=
  let '(temp_dict, records) := st in
  if updated it_monitor then
    match populate_nb_report it_monitor temp_dict with
    | Done temp_dict' => (temp_dict', records)
    | Failed temp_dict' =>
        (temp_dict',
         records ++
         [py.LogException
            ("Error retrieving data from monitor " +:+ name it_monitor +:+ ".")])
    end
  else
    (temp_dict,
     records ++
     [py.LogInfo ("Data not updated yet in monitor " +:+ name it_monitor)]).

(** The loop over [self.monitor_list.values()], from a given [temp_dict]. *)
Definition collect_monitors (monitors : list Monitor)
    (st : Report * list py.LogRecord) : Report * list py.LogRecord :=
  fold_left collect_monitor monitors st.

Definition _collect_monitor_metrics (self : Telemetry)
    : Telemetry * py.outcome :=
  let '(temp_dict, records) :=
    collect_monitors (values (monitor_list self)) (∅, log self) in
  let self :=
    mkTelemetry (_local_telemetry self) (report_channel self)
      (status_channel self) (edge_status self) (monitor_list self) records in
  match model_validate temp_dict with
  | Some payload => (set_local_telemetry self payload, py.Returned)
  | None => (self, py.Raised py.ValidationError)
  end.

(** *** [_sync_status_to_telemetry] *)

Definition sync_attribute (payload : TelemetryPayloadAttributes)
    (item : string * EdgeValue) : TelemetryPayloadAttributes :=
  match snd item with
  | Model dump =>
      let data := filter (fun kv : string * py.PyVal => py.truthy (snd kv)) dump in
      if bool_decide (size data = 0) then payload else update payload data
  | Plain _ => payload
  end.

Definition _sync_status_to_telemetry (self : Telemetry) : Telemetry :=
  set_local_telemetry self
    (fold_left sync_attribute (edge_status self) (_local_telemetry self)).

(** *** [run] *)

(** What the other threads sharing [report_channel] do during the delivery
    step of one [run]: between the refused [put] and the [get], and between
    the [get] and the second [put]. *)
Record Interleaving := mkInterleaving {
  before_get : list (queue.ThreadOp TelemetryPayloadAttributes);
  before_retry : list (queue.ThreadOp TelemetryPayloadAttributes)
}.

(** No other thread touches the channel during the step. *)
Definition quiet : Interleaving := mkInterleaving [] [].

(** The last statement of [run]: [try: put(block=False)], and in
    [except Full:] a warning, [get(block=False)], [put(block=False)].
    Nothing encloses the handler's two calls. *)
Definition write_to_agent_queue (others : Interleaving) (self : Telemetry)
    : Telemetry * py.outcome :=
  let payload := _local_telemetry self in
  match queue.put (report_channel self) payload with
  | inr q => (set_report_channel self q, py.Returned)
  | inl _ =>
      let self :=
        logger self
          (py.LogWarning
             "Telemetry Queue is full, agent not consuming data... Discarding oldest telemetry.") in
      let q := queue.interleave (before_get others) (report_channel self) in
      match queue.get q with
      | inl e => (set_report_channel self q, py.Raised e)
      | inr (_, q) =>
          let q := queue.interleave (before_retry others) q in
          match queue.put q payload with
          | inr q => (set_report_channel self q, py.Returned)
          | inl e => (set_report_channel self q, py.Raised e)
          end
      end
  end.

(** [self._local_telemetry.current_time = ...] *)
Definition stamp (now : datetime) (self : Telemetry) : Telemetry :=
  set_local_telemetry self
    (mkPayload (Some (current_time_stamp now))
       (attributes (_local_telemetry self))).

(** [Telemetry.run], called when the clock reads [now]. *)
Definition run (now : datetime) (others : Interleaving) (self : Telemetry)
    : Telemetry * py.outcome :=
  let self := status_running now self in
  let self := logger self (py.LogInfo "Collecting monitor metrics...") in
  let self := _check_monitors_health self in
  match _collect_monitor_metrics self with
  | (self, py.Raised e) => (self, py.Raised e)
  | (self, py.Returned) =>
      let self := logger self (py.LogInfo "Translating telemetry data") in
      let self := _sync_status_to_telemetry self in
      let self := stamp now self in
      write_to_agent_queue others self
  end.

(** *** [_initialize_monitors] *)

(** The body of the loop, for one name of [active_monitors]; [excluded] is
    [self.excluded_monitors]. *)
Definition initialize_monitor (excluded : list string) (self : Telemetry)
    (mon : string) : Telemetry :=
  if bool_decide (rsplit_head "_"%char mon ∈ excluded) then
    logger self
      (py.LogInfo ("Monitor " +:+ dquote +:+ mon +:+ dquote +:+ " excluded"))
  else
    let monitor := get_monitor mon mon self true in
    if enabled_monitor monitor then
      set_monitor_list self (dict_set (monitor_list self) mon monitor)
    else
      logger self
        (py.LogInfo ("Monitor " +:+ dquote +:+ mon +:+ dquote +:+ " disabled")).

(** [Telemetry._initialize_monitors]; [active_monitors] is the list of the
    monitor modules found in the components package (not among the
    sources). *)
Definition _initialize_monitors (active_monitors excluded : list string)
    (self : Telemetry) : Telemetry :=
  _check_monitors_health
    (fold_left (initialize_monitor excluded) active_monitors self).

(** What the registry holds while the monitors are being initialised:
    names that are not excluded, each once and in the order of [visited],
    each with an enabled instance that the constructor built for this
    name. *)
Definition registry_ok (excluded visited : list string)
    (registry : list (string * Monitor)) : Prop :=
  NoDup (keys registry) /\
  sublist (keys registry) visited /\
  forall mon monitor,
    dict_get registry mon = Some monitor ->
    (rsplit_head "_"%char mon ∉ excluded) /\
    enabled_monitor monitor = true /\
    exists during, monitor = get_monitor mon mon during true.

End WithCollaborators.

End telemetry.

(** ** Traffic counters of the network monitor *)

Module network.

(** Modelled from the spec: a pair of cumulative byte counts of one
    interface, as reported and as persisted between polls (the dictionaries
    of [test_read_traffic_data]). *)
Record NetStats := mkNetStats {
  bytes_transmitted : Z;
  bytes_received : Z
}.

(** Modelled from the spec: an entry of [first_net_stats], the CounterState
    of section 3: the raw counters taken as zero point (the baseline) and
    the totals carried over from before it. *)
Record FirstNetStats := mkFirstNetStats {
  first_bytes_transmitted : Z;
  first_bytes_received : Z;
  bytes_transmitted_carry : Z;
  bytes_received_carry : Z
}.

(** Modelled from the spec: the raw counters read for one interface, in the
    order the test feeds them. *)
Record Counters := mkCounters {
  rx_bytes : Z;
  tx_bytes : Z
}.

(** Modelled from the spec: [NetworkMonitor.read_traffic_data]
    (nuvlaedge/agent/workers/monitor/components/network.py) is not among the
    sources; only its test is.  One poll of one interface follows section
    4.4: with no baseline yet the baseline becomes the raw reading and the
    carry the persisted totals (0 without a record), and the carry is what
    is reported; with raw readings at or above the baseline the report is
    carry + (raw - baseline) and nothing changes; with a reading below the
    baseline the counters were reset, the baseline becomes the raw reading
    and the carry the persisted totals (0 without a record).  On two points
    the model follows the assertions of [test_read_traffic_data], which the
    sentences of section 4.4 do not: a reset of an interface is detected
    when either direction reads below its baseline, and the value reported
    in the reset cycle is the new carry plus the raw reading. *)
Definition reconcile (previous : option NetStats)
    (first : option FirstNetStats) (raw : Counters)
    : FirstNetStats * NetStats :=
  let carry := default (mkNetStats 0 0) previous in
  let restart :=
    mkFirstNetStats (tx_bytes raw) (rx_bytes raw)
      (bytes_transmitted carry) (bytes_received carry) in
  match first with
  | None => (restart, carry)
  | Some f =>
      if (rx_bytes raw <? first_bytes_received f)%Z
         || (tx_bytes raw <? first_bytes_transmitted f)%Z
      then
        (restart,
         mkNetStats (bytes_transmitted carry + tx_bytes raw)
           (bytes_received carry + rx_bytes raw))
      else
        (f,
         mkNetStats
           (tx_bytes raw - first_bytes_transmitted f + bytes_transmitted_carry f)
           (rx_bytes raw - first_bytes_received f + bytes_received_carry f))
  end.

(** Modelled from the spec: the monitor's state across polls. *)
Record NetworkMonitor := mkNetworkMonitor {
  first_net_stats : gmap string FirstNetStats
}.

(** Modelled from the spec: one interface of a poll; an interface whose
    counter files cannot be read is skipped, as the test asserts. *)
Definition read_interface
    (previous_net_stats : option (gmap string NetStats))
    (st : NetworkMonitor * list (string * NetStats))
    (entry : string * option Counters)
    : NetworkMonitor * list (string * NetStats) :=
  let '(self, net_stats) := st in
  let '(interface, reading) := entry in
  match reading with
  | None => st
  | Some raw =>
      let '(f, report) :=
        reconcile (previous_net_stats ≫= (fun prev => prev !! interface))
          (first_net_stats self !! interface) raw in
      (mkNetworkMonitor (<[interface := f]> (first_net_stats self)),
       net_stats ++ [(interface, report)])
  end.

(** Modelled from the spec: one poll ([read_traffic_data]).
    [previous_net_stats] is the persisted record loaded this cycle, if any;
    [sysfs] lists the interfaces with their raw counters, [None] when the
    directory of interfaces cannot be listed.  Returns the state and the
    list of reports, one per interface read. *)
Definition read_traffic_data (self : NetworkMonitor)
    (previous_net_stats : option (gmap string NetStats))
    (sysfs : option (list (string * option Counters)))
    : NetworkMonitor * list (string * NetStats) :=
  match sysfs with
  | None => (self, [])
  | Some ifaces =>
      fold_left (read_interface previous_net_stats) ifaces (self, [])
  end.

(** Modelled from the spec: a poll of a single interface, by direction: raw
    [(tx, rx)] in, reported [(tx, rx)] out. *)
Definition poll (previous : option NetStats) (first : option FirstNetStats)
    (tx rx : Z) : FirstNetStats * (Z * Z) :=
  let '(f, report) := reconcile previous first (mkCounters rx tx) in
  (f, (bytes_transmitted report, bytes_received report)).

(** Modelled from the spec: the baseline [(tx, rx)] and the carry
    [(tx, rx)] of an entry. *)
Definition baseline (f : FirstNetStats) : Z * Z :=
  (first_bytes_transmitted f, first_bytes_received f).
Definition carry (f : FirstNetStats) : Z * Z :=
  (bytes_transmitted_carry f, bytes_received_carry f).

End network.

(** ** Periodic actions and the agent's main loop *)

Module timed_actions.

(** Modelled from the spec: [TimedAction] and [ActionHandler]
    (nuvlaedge/common/timed_actions.py) are not among the sources; the
    fields are those [initialize_action] passes.  The callable is kept by
    name; it plays no part in the scheduling. *)
Record TimedAction := mkTimedAction {
  name : string;
  period : Z;
  action : string;
  remaining_time : Q
}.

(** Modelled from the spec: the handler owns the actions, in the order they
    were added, and remembers when [next] was last called. *)
Record ActionHandler := mkActionHandler {
  _actions : list TimedAction;
  _last_time : Q           (* clock reading at the previous [next] *)
}.

(** Modelled from the spec: [add] registers a named action and fails with
    DuplicateName ([None]) if the name exists (section 4.1). *)
Definition add (self : ActionHandler) (a : TimedAction)
    : option ActionHandler :=
  if bool_decide (name a ∈ map name (_actions self)) then None
  else Some (mkActionHandler (_actions self ++ [a]) (_last_time self)).

(** Modelled from the spec: the clock of one action moves by the elapsed
    time. *)
Definition tick (elapsed : Q) (a : TimedAction) : TimedAction :=
  mkTimedAction (name a) (period a) (action a) (remaining_time a - elapsed)%Q.

(** Modelled from the spec: after it ran, an action is due again in one
    period. *)
Definition reset (a : TimedAction) : TimedAction :=
  mkTimedAction (name a) (period a) (action a) (inject_Z (period a)).

(** Modelled from the spec: the action with the smallest remaining time; of
    several, the one registered first (as Python's [min] breaks ties). *)
Fixpoint nearest (actions : list TimedAction) : option TimedAction :=
  match actions with
  | [] => None
  | a :: rest =>
      match nearest rest with
      | None => Some a
      | Some b =>
          if Qle_bool (remaining_time a) (remaining_time b) then Some a
          else Some b
      end
  end.

(** Modelled from the spec: [next()] "advances internal clocks by elapsed
    wall time since the previous call, selects the action with the smallest
    (most overdue) remaining_time, invokes it with its stored arguments,
    resets its remaining_time to its period, and returns.  Exactly one
    action runs per call" (section 4.1).  [now] is the clock reading at the
    call; the result names the action that ran. *)
Definition next (now : Q) (self : ActionHandler)
    : ActionHandler * option TimedAction :=
  let elapsed := (now - _last_time self)%Q in
  let actions := map (tick elapsed) (_actions self) in
  match nearest actions with
  | None => (mkActionHandler actions now, None)
  | Some a =>
      (mkActionHandler
         (map (fun b => if bool_decide (name b = name a) then reset b else b)
            actions)
         now,
       Some a)
  end.

(** Modelled from the spec: [sleep_time()] is
    [max(0, min(remaining_time over all actions))] (section 4.1); 0 when no
    action is registered. *)
Definition sleep_time (self : ActionHandler) : Q :=
  match nearest (_actions self) with
  | None => 0%Q
  | Some a => Qmax 0%Q (remaining_time a)
  end.

End timed_actions.

Module agent.

(** [initialize_action] of nuvlaedge/agent/__init__.py: builds the
    [TimedAction] and adds it to the module's [action_handler].
    [remaining_time] defaults to 0. *)
Definition initialize_action (name : string) (period : Z) (action : string)
    (remaining_time : Q) (action_handler : timed_actions.ActionHandler)
    : option timed_actions.ActionHandler :=
  timed_actions.add action_handler
    (timed_actions.mkTimedAction name period action remaining_time).

(** The three [initialize_action] calls of [main], on the module's
    [action_handler = ActionHandler([])] created when the clock read
    [started].  [HEARTBEAT_INTERVAL] and [REFRESH_INTERVAL] are the
    constants of [CTE] (nuvlaedge/common/constants.py, not among the
    sources). *)
Definition main_actions (HEARTBEAT_INTERVAL REFRESH_INTERVAL : Z)
    (started : Q) : option timed_actions.ActionHandler :=
  h ← initialize_action "heartbeat" HEARTBEAT_INTERVAL "send_heartbeat"
        (inject_Z HEARTBEAT_INTERVAL)
        (timed_actions.mkActionHandler [] started);
  h ← initialize_action "telemetry" REFRESH_INTERVAL "send_telemetry"
        (inject_Z REFRESH_INTERVAL / 2)%Q h;
  initialize_action "sync_resources" 30 "resource_synchronization" 0%Q h.

(** The [while] loop of [main] under a virtual clock that moves only while
    the loop sleeps: each cycle calls [next] and then waits for
    [sleep_time()].  Returns the names of the actions run by the first
    [cycles] cycles. *)
Fixpoint main_loop (cycles : nat) (now : Q)
    (action_handler : timed_actions.ActionHandler) : list string :=
  match cycles with
  | O => []
  | S cycles =>
      let '(action_handler, ran) := timed_actions.next now action_handler in
      from_option (fun a => [timed_actions.name a]) [] ran ++
      main_loop cycles (now + timed_actions.sleep_time action_handler)%Q
        action_handler
  end.

(** *** Synchronisation with the resource kept by Nuvla *)

(** The NuvlaEdge resource document, by the keys this module reads; a key is
    absent or holds a value of its type. *)
Record NuvlaEdgeResource := mkNuvlaEdgeResource {
  state : option string;
  updated : option string;
  vpn_server_id : option string;              (* ["vpn-server-id"] *)
  refresh_interval : option Z;                (* ["refresh-interval"] *)
  heartbeat_interval : option Z               (* ["heartbeat-interval"] *)
}.

(** The calls this module makes on its collaborators: the activator, the
    exit event, the infrastructure and the action handler.  Records given
    to the logger are left out. *)
Inductive Call :=
| get_nuvlaedge_info
| create_nb_document_file (resource : NuvlaEdgeResource)
| edit_period (name : string) (period : Z)
| commission_vpn
| watch_vpn_credential (vpn_server_id : string)
| exit_event_set.

(** How a function of this module ends. *)
Inductive Ended :=
| Returns
| RaisesKeyError (key : string).

(** [update_periods]; [REFRESH_INTERVAL] and [HEARTBEAT_INTERVAL] are the
    constants of [CTE]. *)
Definition update_periods (REFRESH_INTERVAL HEARTBEAT_INTERVAL : Z)
    (nuvlabox_resource : NuvlaEdgeResource) : list Call :=
  let refresh_interval :=
    default REFRESH_INTERVAL (refresh_interval nuvlabox_resource) in
  let heartbeat_interval :=
    default HEARTBEAT_INTERVAL (heartbeat_interval nuvlabox_resource) in
  [edit_period "telemetry" refresh_interval;
   edit_period "heartbeat" heartbeat_interval].

(** [update_nuvlaedge_configuration]: [old['updated']] and
    [current['updated']] raise [KeyError] on a document without the key. *)
Definition update_nuvlaedge_configuration (REFRESH_INTERVAL HEARTBEAT_INTERVAL : Z)
    (current_nuvlabox_res old_nuvlabox_res : NuvlaEdgeResource)
    : list Call * Ended :=
  match updated old_nuvlabox_res, updated current_nuvlabox_res with
  | None, _ => ([], RaisesKeyError "updated")
  | Some _, None => ([], RaisesKeyError "updated")
  | Some old_updated, Some current_updated =>
      if bool_decide (old_updated <> current_updated) then
        (update_periods REFRESH_INTERVAL HEARTBEAT_INTERVAL current_nuvlabox_res
         ++ (if bool_decide (vpn_server_id current_nuvlabox_res
                             <> vpn_server_id old_nuvlabox_res)
             then [commission_vpn] else []),
         Returns)
      else ([], Returns)
  end.

(** [resource_synchronization]: [nuvlaedge_resource] is what
    [activator.get_nuvlaedge_info()] returns and [old_nuvlaedge_resource]
    what [activator.create_nb_document_file(nuvlaedge_resource)] returns,
    the document stored before. *)
Definition resource_synchronization (REFRESH_INTERVAL HEARTBEAT_INTERVAL : Z)
    (nuvlaedge_resource old_nuvlaedge_resource : NuvlaEdgeResource)
    : list Call * Ended :=
  if String.prefix "DECOMMISSION" (default "" (state nuvlaedge_resource)) then
    ([get_nuvlaedge_info; exit_event_set], Returns)
  else
    let '(calls, ended) :=
      update_nuvlaedge_configuration REFRESH_INTERVAL HEARTBEAT_INTERVAL
        nuvlaedge_resource old_nuvlaedge_resource in
    let calls :=
      [get_nuvlaedge_info; create_nb_document_file nuvlaedge_resource]
      ++ calls in
    match ended with
    | RaisesKeyError key => (calls, RaisesKeyError key)
    | Returns =>
        match vpn_server_id nuvlaedge_resource with
        | Some id =>
            if String.eqb id "" then (calls, Returns)
            else (calls ++ [watch_vpn_credential id], Returns)
        | None => (calls, Returns)
        end
    end.

End agent.

(** ** [initialize_logging] (nuvlaedge/common/config_logger.py) *)

Module config_logger.

(** A handler of the root logger: the stream handler that
    [logging.basicConfig(format=...)] installs, or any other one. *)
Inductive Handler :=
| StreamHandler (format : string)
| OtherHandler (id : nat).

(** [logging.root]: its handlers and its level. *)
Record RootLogger := mkRootLogger {
  handlers : list Handler;
  level : Z
}.

Definition LOGGING_BASIC_FORMAT : string :=
  "[%(asctime)s - %(name)s/%(funcName)s - %(levelname)s]: %(message)s".
Definition DEBUG : Z := 10.
Definition INFO : Z := 20.
Definition LOGGING_DEFAULT_LEVEL : Z := INFO.

(** [logging._nameToLevel] *)
Definition _nameToLevel (name : string) : option Z :=
  if String.eqb name "CRITICAL" then Some 50%Z
  else if String.eqb name "FATAL" then Some 50%Z
  else if String.eqb name "ERROR" then Some 40%Z
  else if String.eqb name "WARN" then Some 30%Z
  else if String.eqb name "WARNING" then Some 30%Z
  else if String.eqb name "INFO" then Some 20%Z
  else if String.eqb name "DEBUG" then Some 10%Z
  else if String.eqb name "NOTSET" then Some 0%Z
  else None.

(** What [logging.getLevelName] returns for a string: the number of a
    registered name, the string ["Level " + name] otherwise. *)
Inductive LevelName :=
| LevelNumber (z : Z)
| LevelText (s : string).

Definition getLevelName (name : string) : LevelName :=
  match _nameToLevel name with
  | Some z => LevelNumber z
  | None => LevelText ("Level " +:+ name)
  end.

(** [Logger.setLevel]: a number is taken as it is, a string must be a
    registered name; [None] stands for the [ValueError] raised otherwise. *)
Definition setLevel (root : RootLogger) (l : LevelName) : option RootLogger :=
  match l with
  | LevelNumber z => Some (mkRootLogger (handlers root) z)
  | LevelText s =>
      match _nameToLevel s with
      | Some z => Some (mkRootLogger (handlers root) z)
      | None => None
      end
  end.

(** [while len(handlers) > 0: removeHandler(handlers[-1])], the loop
    unrolled [fuel] times. *)
Fixpoint remove_handlers (fuel : nat) (root : RootLogger) : RootLogger :=
  match fuel with
  | O => root
  | S fuel =>
      if bool_decide (0 < length (handlers root)) then
        remove_handlers fuel
          (mkRootLogger (removelast (handlers root)) (level root))
      else root
  end.

(** [logging.basicConfig(format=..., level=...)]: on a root logger without
    handlers it installs one stream handler with the format and sets the
    level; on a root logger with handlers it does nothing. *)
Definition basicConfig (format : string) (lvl : Z) (root : RootLogger)
    : RootLogger :=
  match handlers root with
  | [] => mkRootLogger [StreamHandler format] lvl
  | _ :: _ => root
  end.

(** How [initialize_logging] ends. *)
Inductive Initialized :=
| Configured (root : RootLogger)
| FileConfigRaised
| ValueErrorRaised.

Section WithFileConfig.

(** [logging.config.fileConfig(config_file)], which depends on the content
    of the file; [None] when it raises. *)
Variable fileConfig : string -> RootLogger -> option RootLogger.

(** [initialize_logging(config_file, debug)] with the environment variable
    [NUVLAEDGE_LOG_LEVEL] holding [env_level] (the empty string when it is
    not set).  The loop runs once per handler of the root logger. *)
Definition initialize_logging (config_file : string) (debug : bool)
    (env_level : string) (root : RootLogger) : Initialized :=
  let root := remove_handlers (length (handlers root)) root in
  let configured :=
    if negb (String.eqb config_file "") then fileConfig config_file root
    else Some (basicConfig LOGGING_BASIC_FORMAT LOGGING_DEFAULT_LEVEL root) in
  match configured with
  | None => FileConfigRaised
  | Some root =>
      let level_set :=
        if debug then setLevel root (LevelNumber DEBUG)
        else if negb (String.eqb env_level "") then
          setLevel root (getLevelName env_level)
        else setLevel root (LevelNumber LOGGING_DEFAULT_LEVEL) in
      match level_set with
      | Some root => Configured root
      | None => ValueErrorRaised
      end
  end.

End WithFileConfig.

End config_logger.

(** ** Concrete collaborators and inputs used in examples *)

Module examples.
Import telemetry.

(** A monitor constructor whose instances start with no error recorded, not
    yet updated and not yet started. *)
Definition fresh_monitor (monitor_name _ : string) (_ : Telemetry) (_ : bool)
    : Monitor :=
  mkMonitor monitor_name true false false true 0 Done.

(** An update that finds nothing new. *)
Definition idle_update (_ : string) (m : Monitor) : Monitor := m.

(** A validation that accepts every field. *)
Definition accept_all (temp_dict : gmap string py.PyVal)
    : option TelemetryPayloadAttributes :=
  Some (mkPayload None temp_dict).

(** An update in which the new fields win. *)
Definition merge_fields (p : TelemetryPayloadAttributes)
    (data : gmap string py.PyVal) : TelemetryPayloadAttributes :=
  mkPayload (current_time p) (data ∪ attributes p).

Definition payload_at (stamp : string) : TelemetryPayloadAttributes :=
  mkPayload (Some stamp) ∅.

(** A telemetry object without monitors whose channel has [maxsize] and
    holds [queued]. *)
Definition telemetry_with (maxsize : Z)
    (queued : list TelemetryPayloadAttributes) : Telemetry :=
  mkTelemetry empty_payload (queue.mkQueue maxsize queued) [] [] [] [].

(** Two clock readings half a second apart, and one a second later. *)
Definition at_9_2 : datetime := mkDatetime 2024 1 5 7 8 9 200000.
Definition at_9_7 : datetime := mkDatetime 2024 1 5 7 8 9 700000.
Definition at_10_2 : datetime := mkDatetime 2024 1 5 7 8 10 200000.

(** An inline monitor that reports the same host name at every cycle, and a
    telemetry object with this monitor and an empty channel of capacity 10. *)
Definition host_monitor : Monitor :=
  mkMonitor "host" false false true true 0
    (fun temp_dict => Done (<["hostname" := py.VStr "edge"]> temp_dict)).
Definition telemetry_host : Telemetry :=
  mkTelemetry empty_payload (queue.new 10) [] [] [("host", host_monitor)] [].

(** A threaded monitor whose thread has died after three recorded errors,
    and a telemetry object whose registry holds it. *)
Definition dead_monitor : Monitor :=
  mkMonitor "network" true false true true 3 Done.
Definition telemetry_dead : Telemetry :=
  mkTelemetry empty_payload (queue.new 10) [] []
    [("host", host_monitor); ("network", dead_monitor)] [].

(** A monitor whose collection raises before writing anything, one whose
    data is not updated yet, and one that reports the operating system. *)
Definition failing_monitor : Monitor :=
  mkMonitor "gpio" false false true true 0 (fun temp_dict => Failed temp_dict).
Definition stale_monitor : Monitor :=
  mkMonitor "geolocation" false false false true 0
    (fun temp_dict => Done (<["inferred_location" := py.VList []]> temp_dict)).
Definition os_monitor : Monitor :=
  mkMonitor "os" false false true true 0
    (fun temp_dict => Done (<["operating_system" := py.VStr "Linux"]> temp_dict)).

(** A stand-in for [AgentWorker] that keeps what the constructor is given. *)
Record StoredWorker := mkStoredWorker {
  stored_period : Z;
  stored_type : manager.PyObject;
  stored_params : manager.InitParams;
  stored_actions : list string
}.

(** Two classes with no metaclass of their own. *)
Definition TelemetryClass : manager.PyObject :=
  manager.ClassObject "Telemetry" "type".
Definition CommissionerClass : manager.PyObject :=
  manager.ClassObject "Commissioner" "type".

(** The raw counters of [test_read_traffic_data]: per interface, the value
    read first (received) and the value read second (transmitted). *)
Definition sysfs (l : list (string * (Z * Z)))
    : option (list (string * option network.Counters)) :=
  Some (map (fun '(interface, (rx, tx)) =>
               (interface, Some (network.mkCounters rx tx))) l).

(** The persisted record of the last part of the test. *)
Definition previous_net_stats : gmap string network.NetStats :=
  {[ "iface1" := network.mkNetStats 1 1; "iface2" := network.mkNetStats 2 2 ]}.

(** A validation that refuses any field the payload does not declare. *)
Definition forbid_extra (temp_dict : gmap string py.PyVal)
    : option TelemetryPayloadAttributes :=
  if bool_decide (Forall (fun k => k ∈ payload_fields)
                    (fst <$> map_to_list temp_dict))
  then Some (mkPayload None temp_dict) else None.

(** A monitor that reports a field the payload does not declare, and a
    telemetry object with this monitor and one queued payload. *)
Definition odd_monitor : Monitor :=
  mkMonitor "odd" false false true true 0
    (fun temp_dict => Done (<["colour" := py.VStr "blue"]> temp_dict)).
Definition telemetry_odd : Telemetry :=
  mkTelemetry (payload_at "2024-01-05T07:08:08Z")
    (queue.mkQueue 10 [payload_at "2024-01-05T07:08:08Z"]) [] []
    [("odd", odd_monitor)] [].

(** A threaded monitor whose thread is running, and a telemetry object
    whose registry holds it after an inline monitor. *)
Definition live_monitor : Monitor :=
  mkMonitor "network" true true true true 0 Done.
Definition telemetry_live : Telemetry :=
  mkTelemetry empty_payload (queue.new 10) [] []
    [("host", host_monitor); ("network", live_monitor)] [].

(** A monitor constructor whose instances are inline monitors. *)
Definition inline_monitor (monitor_name _ : string) (_ : Telemetry) (_ : bool)
    : Monitor :=
  mkMonitor monitor_name false false false true 0 Done.

(** A telemetry object whose status holds an empty address, an attribute
    that is no model, and a payload from the cycle before. *)
Definition telemetry_idle_status : Telemetry :=
  mkTelemetry (payload_at "2024-01-05T07:08:08Z") (queue.new 10) []
    [("ip", Model {[ "ip" := py.VStr "" ]}); ("uuid", Plain (py.VStr "nuvlabox/1"))]
    [] [].

(** A configuration file that gives the root logger one handler and the
    level WARNING. *)
Definition file_config (config_file : string) (root : config_logger.RootLogger)
    : option config_logger.RootLogger :=
  Some (config_logger.mkRootLogger [config_logger.OtherHandler 0] 30).

Definition older : TelemetryPayloadAttributes := payload_at "2024-01-05T07:08:07Z".
Definition newer : TelemetryPayloadAttributes := payload_at "2024-01-05T07:08:08Z".

End examples.

(** * Properties *)

(** Closes [NoDup l] for a list of distinct closed terms. *)
Ltac solve_NoDup :=
  repeat (apply NoDup_cons; split;
          [rewrite ?elem_of_cons, elem_of_nil;
           let H := fresh in intros H; decompose [or] H;
           discriminate || done|]);
  apply NoDup_nil_2.

(** ** [queue.Queue] *)

Lemma queue_new_wf {A} (maxsize : Z) : queue.wf (@queue.new A maxsize).
Proof. unfold queue.wf, queue.new, queue.qsize; simpl; lia. Qed.

Lemma queue_put_inv {A} (q q' : queue.Queue A) x :
  queue.put q x = inr q' ->
  queue.full q = false /\ q' = queue.mkQueue (queue.maxsize q) (queue.items q ++ [x]).
Proof.
  unfold queue.put. destruct (queue.full q); [discriminate|].
  intros [= <-]; done.
Qed.

Lemma queue_put_wf {A} (q q' : queue.Queue A) x :
  queue.wf q -> queue.put q x = inr q' -> queue.wf q'.
Proof.
  intros Hwf [Hfull ->]%queue_put_inv.
  unfold queue.wf, queue.full, queue.qsize in *; simpl in *.
  rewrite length_app; simpl. intros Hpos. specialize (Hwf Hpos).
  apply andb_false_iff in Hfull as [?%Z.ltb_ge|?%Z.leb_gt]; lia.
Qed.

Lemma queue_get_wf {A} (q q' : queue.Queue A) x :
  queue.wf q -> queue.get q = inr (x, q') -> queue.wf q'.
Proof.
  unfold queue.wf, queue.get, queue.qsize.
  destruct (queue.items q) eqn:E; [discriminate|].
  intros Hwf [= _ <-]; simpl in *. lia.
Qed.

(** A refused [put] leaves a non-empty queue, and after one [get] a bounded
    queue that respected its bound has room again. *)
Lemma queue_full_get_put {A} (q : queue.Queue A) x :
  queue.wf q -> queue.full q = true ->
  exists oldest rest,
    queue.items q = oldest :: rest /\
    queue.get q = inr (oldest, queue.mkQueue (queue.maxsize q) rest) /\
    queue.put (queue.mkQueue (queue.maxsize q) rest) x
      = inr (queue.mkQueue (queue.maxsize q) (rest ++ [x])).
Proof.
  unfold queue.wf, queue.full, queue.get, queue.put, queue.qsize.
  intros Hwf [Hpos%Z.ltb_lt Hle%Z.leb_le]%andb_true_iff.
  specialize (Hwf Hpos).
  destruct (queue.items q) as [|oldest rest] eqn:E; simpl in *; [lia|].
  exists oldest, rest. repeat split.
  unfold queue.full, queue.qsize; simpl.
  replace (queue.maxsize q <=? Z.of_nat (length rest))%Z with false
    by (symmetry; apply Z.leb_gt; lia).
  by rewrite andb_false_r.
Qed.

(** ** [Telemetry]: what each step of [run] leaves untouched *)

Section TelemetryFrame.
Import telemetry.

Variable get_monitor : string -> string -> Telemetry -> bool -> Monitor.
Variable run_update_data : string -> Monitor -> Monitor.
Variable model_validate : gmap string py.PyVal -> option TelemetryPayloadAttributes.
Variable update :
  TelemetryPayloadAttributes -> gmap string py.PyVal -> TelemetryPayloadAttributes.

Lemma check_monitor_frame self item :
  let self' := check_monitor get_monitor run_update_data self item in
  report_channel self' = report_channel self /\
  _local_telemetry self' = _local_telemetry self.
Proof.
  destruct item as [n m]; simpl.
  destruct (is_thread m); [destruct (is_thread_creation_needed n m)|]; done.
Qed.

Lemma check_monitors_frame items self :
  let self' := fold_left (check_monitor get_monitor run_update_data) items self in
  report_channel self' = report_channel self /\
  _local_telemetry self' = _local_telemetry self.
Proof.
  revert self; induction items as [|item items IH]; intros self; simpl; [done|].
  destruct (IH (check_monitor get_monitor run_update_data self item)) as (-> & ->).
  apply check_monitor_frame.
Qed.

Lemma collect_monitor_metrics_channel self self' out :
  _collect_monitor_metrics model_validate self = (self', out) ->
  report_channel self' = report_channel self.
Proof.
  unfold _collect_monitor_metrics.
  destruct (collect_monitors _ _) as [temp_dict records].
  destruct (model_validate temp_dict); intros [= <- _]; done.
Qed.

Lemma write_to_agent_queue_payload others self :
  _local_telemetry (fst (write_to_agent_queue others self)) = _local_telemetry self.
Proof.
  unfold write_to_agent_queue.
  destruct (queue.put _ _); [|done].
  destruct (queue.get _) as [|[? ?]]; [done|].
  destruct (queue.put _ _); done.
Qed.

(** A run that gets past validation delivers the payload it stamped, to the
    channel it found. *)
Lemma run_reaches_delivery now others self self' out :
  run get_monitor run_update_data model_validate update now others self
    = (self', out) ->
  out <> py.Raised py.ValidationError ->
  exists ready,
    report_channel ready = report_channel self /\
    current_time (_local_telemetry ready) = Some (current_time_stamp now) /\
    write_to_agent_queue others ready = (self', out).
Proof.
  unfold run. intros Hrun Hout.
  destruct (_collect_monitor_metrics _ _) as [collected [|e]] eqn:Hc.
  - eexists; split; [|split; [|exact Hrun]]; [|done].
    simpl. apply collect_monitor_metrics_channel in Hc. rewrite Hc.
    unfold _check_monitors_health.
    by destruct (check_monitors_frame
                   (monitor_list
                      (logger (status_running now self)
                         (py.LogInfo "Collecting monitor metrics...")))
                   (logger (status_running now self)
                      (py.LogInfo "Collecting monitor metrics..."))) as (-> & _).
  - injection Hrun as <- <-.
    unfold _collect_monitor_metrics in Hc.
    destruct (collect_monitors _ _) as [temp_dict records].
    destruct (model_validate temp_dict); [discriminate|].
    by injection Hc as _ <-.
Qed.

End TelemetryFrame.

(** ** Delivery to the report channel *)

Section Delivery.
Import telemetry.

Variable get_monitor : string -> string -> Telemetry -> bool -> Monitor.
Variable run_update_data : string -> Monitor -> Monitor.
Variable model_validate : gmap string py.PyVal -> option TelemetryPayloadAttributes.
Variable update :
  TelemetryPayloadAttributes -> gmap string py.PyVal -> TelemetryPayloadAttributes.

(** The delivery step when no other thread touches the channel: the payload
    is appended, after the oldest item was dropped if the channel was full. *)
Lemma write_to_agent_queue_quiet self :
  queue.wf (report_channel self) ->
  exists self',
    write_to_agent_queue quiet self = (self', py.Returned) /\
    _local_telemetry self' = _local_telemetry self /\
    queue.maxsize (report_channel self') = queue.maxsize (report_channel self) /\
    queue.items (report_channel self') =
      (if queue.full (report_channel self)
       then tail (queue.items (report_channel self))
       else queue.items (report_channel self)) ++ [_local_telemetry self].
Proof.
  intros Hwf. unfold write_to_agent_queue.
  destruct (queue.put (report_channel self) _) as [e|q] eqn:Hput.
  - assert (Hfull : queue.full (report_channel self) = true).
    { unfold queue.put in Hput. by destruct (queue.full _). }
    destruct (queue_full_get_put _ (_local_telemetry self) Hwf Hfull)
      as (oldest & rest & Hitems & Hget & Hretry).
    simpl. rewrite Hget, Hretry, Hfull, Hitems. eexists; split; [done|]. done.
  - apply queue_put_inv in Hput as [-> ->]. eexists; split; [done|]. done.
Qed.

(** C1. In a cycle of [Telemetry.run] that reaches the delivery step while
    the report channel holds its capacity [C] of payloads, and during which
    no other thread operates on the channel, the run returns, the channel
    holds [C] items again, its previous items but the oldest are kept in
    order and the payload produced by this cycle is the newest item: the
    new contents are the old ones with one occurrence of the oldest item
    removed and the new payload added.  When the queued payloads and the new
    one are pairwise distinct the oldest one is no longer in the channel. *)
Theorem run_full_channel_drops_oldest now self self' out C oldest rest :
  queue.maxsize (report_channel self) = C ->
  (0 < C)%Z ->
  queue.items (report_channel self) = oldest :: rest ->
  queue.qsize (report_channel self) = C ->
  run get_monitor run_update_data model_validate update now quiet self
    = (self', out) ->
  out <> py.Raised py.ValidationError ->
  out = py.Returned /\
  current_time (_local_telemetry self') = Some (current_time_stamp now) /\
  queue.maxsize (report_channel self') = C /\
  queue.qsize (report_channel self') = C /\
  queue.items (report_channel self') = rest ++ [_local_telemetry self'] /\
  _local_telemetry self' ∈ queue.items (report_channel self') /\
  oldest :: queue.items (report_channel self')
    ≡ₚ queue.items (report_channel self) ++ [_local_telemetry self'] /\
  (NoDup (queue.items (report_channel self) ++ [_local_telemetry self']) ->
   oldest ∉ queue.items (report_channel self')).
Proof.
  intros Hmax Hpos Hitems Hsize Hrun Hout.
  destruct (run_reaches_delivery _ _ _ _ _ _ _ _ _ Hrun Hout)
    as (ready & Hchan & Hstamp & Hwrite).
  assert (Hwf : queue.wf (report_channel ready)).
  { rewrite Hchan. unfold queue.wf. lia. }
  assert (Hfull : queue.full (report_channel ready) = true).
  { rewrite Hchan. unfold queue.full. rewrite Hsize, Hmax.
    apply andb_true_iff; split; [by apply Z.ltb_lt | by apply Z.leb_le]. }
  destruct (write_to_agent_queue_quiet ready Hwf)
    as (delivered & Hq & Hpayload & Hmax' & Hitems').
  rewrite Hwrite in Hq. injection Hq as Hs Ho. subst self' out.
  rewrite Hfull, Hchan, Hitems in Hitems'. simpl in Hitems'.
  rewrite Hchan in Hmax'.
  rewrite Hpayload, Hitems'. repeat split.
  - done.
  - congruence.
  - unfold queue.qsize in *. rewrite Hitems', length_app; simpl.
    rewrite Hitems in Hsize; simpl in Hsize. lia.
  - apply elem_of_app; right. by apply list_elem_of_singleton.
  - by rewrite Hitems.
  - rewrite Hitems. simpl. by intros [Hnotin _]%NoDup_cons.
Qed.

End Delivery.

(** The statement of C1 holds of a channel of capacity 2 that holds two
    payloads when a third is produced. *)
Lemma run_full_channel_drops_oldest_witness :
  let self := examples.telemetry_with 2 [examples.older; examples.newer] in
  let self' :=
    fst (telemetry.run examples.fresh_monitor examples.idle_update
           examples.accept_all examples.merge_fields examples.at_9_2
           telemetry.quiet self) in
  telemetry.current_time (telemetry._local_telemetry self')
    = Some (telemetry.current_time_stamp examples.at_9_2) /\
  queue.items (telemetry.report_channel self')
    = [examples.newer] ++ [telemetry._local_telemetry self'] /\
  queue.qsize (telemetry.report_channel self') = 2%Z /\
  examples.older ∉ queue.items (telemetry.report_channel self').
Proof.
  intros self self'.
  destruct (run_full_channel_drops_oldest
    examples.fresh_monitor examples.idle_update examples.accept_all
    examples.merge_fields examples.at_9_2 self self'
    (snd (telemetry.run examples.fresh_monitor examples.idle_update
            examples.accept_all examples.merge_fields examples.at_9_2
            telemetry.quiet self))
    2%Z examples.older [examples.newer]
    eq_refl eq_refl eq_refl eq_refl (surjective_pairing _))
    as (_ & Hstamp & _ & Hsize & Hitems & _ & _ & Habsent).
  { vm_compute. discriminate. }
  split; [exact Hstamp|]. split; [exact Hitems|]. split; [exact Hsize|].
  apply Habsent. vm_compute.
  solve_NoDup.
Defined.

(** C6 (as stated) fails: the handler's two calls are not guarded.  With a
    channel of capacity 1 holding one payload, a producer that refills the
    channel between the drop and the retry makes the second [put] raise
    [Full], and a consumer that empties the channel between the refused
    [put] and the drop makes the [get] raise [Empty]; either exception
    leaves [run], the payload is not enqueued, and the last record logged is
    the warning that opens the [except Full] branch. *)
Lemma run_delivery_exception_propagates :
  let self := examples.telemetry_with 1 [examples.older] in
  let run_with others :=
    telemetry.run examples.fresh_monitor examples.idle_update
      examples.accept_all examples.merge_fields examples.at_9_2 others self in
  let refilled :=
    run_with (telemetry.mkInterleaving [] [queue.OtherPut examples.newer]) in
  let drained :=
    run_with (telemetry.mkInterleaving [queue.OtherGet] []) in
  let records :=
    [py.LogInfo "Collecting monitor metrics...";
     py.LogInfo "Translating telemetry data";
     py.LogWarning
       "Telemetry Queue is full, agent not consuming data... Discarding oldest telemetry."] in
  snd refilled = py.Raised py.Full /\
  queue.items (telemetry.report_channel (fst refilled)) = [examples.newer] /\
  telemetry.log (fst refilled) = records /\
  snd drained = py.Raised py.Empty /\
  queue.items (telemetry.report_channel (fst drained)) = [] /\
  telemetry.log (fst drained) = records.
Proof. vm_compute. repeat split. Qed.

(** C6 (amended).  When the first [put] is accepted the payload is enqueued
    and nothing is logged.  When it is refused, a warning is logged, the
    oldest entry is dropped and the enqueue is retried once; the exceptions
    of the drop and of the retry are not caught: [Empty] propagates when the
    channel is found empty at the drop, [Full] when it is found full at the
    retry, the payload is then not enqueued and nothing else is logged.  If
    no other thread operates on the channel during the step, it returns
    without raising. *)
Theorem write_to_agent_queue_saturation
    (others : telemetry.Interleaving) (self : telemetry.Telemetry) :
  queue.wf (telemetry.report_channel self) ->
  let payload := telemetry._local_telemetry self in
  let channel := telemetry.report_channel self in
  let self' := fst (telemetry.write_to_agent_queue others self) in
  let out := snd (telemetry.write_to_agent_queue others self) in
  (queue.full channel = false ->
     out = py.Returned /\
     queue.items (telemetry.report_channel self') = queue.items channel ++ [payload] /\
     telemetry.log self' = telemetry.log self) /\
  (queue.full channel = true ->
     telemetry.log self' = telemetry.log self ++
       [py.LogWarning
          "Telemetry Queue is full, agent not consuming data... Discarding oldest telemetry."] /\
     match queue.get (queue.interleave (telemetry.before_get others) channel) with
     | inl _ =>
         out = py.Raised py.Empty /\
         telemetry.report_channel self'
           = queue.interleave (telemetry.before_get others) channel
     | inr (_, dropped) =>
         let retried := queue.interleave (telemetry.before_retry others) dropped in
         if queue.full retried
         then out = py.Raised py.Full /\ telemetry.report_channel self' = retried
         else out = py.Returned /\
              queue.items (telemetry.report_channel self')
                = queue.items retried ++ [payload]
     end) /\
  (others = telemetry.quiet -> out = py.Returned).
Proof.
  intros Hwf payload channel self' out.
  subst payload channel self' out.
  split; [|split].
  - intros Hfull. unfold telemetry.write_to_agent_queue, queue.put.
    rewrite Hfull. done.
  - intros Hfull.
    assert (Hput : queue.put (telemetry.report_channel self)
                     (telemetry._local_telemetry self) = inl py.Full).
    { unfold queue.put. by rewrite Hfull. }
    unfold telemetry.write_to_agent_queue. rewrite Hput. simpl.
    destruct (queue.get _) as [e|[x dropped]] eqn:Hget; simpl.
    + split; [done|]. split; [|done].
      unfold queue.get in Hget.
      destruct (queue.items _); [by injection Hget as <-|discriminate].
    + unfold queue.put.
      destruct (queue.full (queue.interleave _ dropped)); done.
  - intros ->.
    by destruct (write_to_agent_queue_quiet self Hwf) as (? & -> & _).
Qed.

(** The amended statement at a full channel of capacity 1 left alone by the
    other threads: the oldest payload gives way to the new one. *)
Lemma write_to_agent_queue_saturation_witness :
  snd (telemetry.write_to_agent_queue telemetry.quiet
         (examples.telemetry_with 1 [examples.older])) = py.Returned.
Proof.
  refine (proj2 (proj2 (write_to_agent_queue_saturation telemetry.quiet
            (examples.telemetry_with 1 [examples.older]) _)) eq_refl).
  unfold queue.wf, queue.qsize; simpl; lia.
Defined.

(** ** The time stamp *)

Lemma digit_inj a b : telemetry.digit a = telemetry.digit b -> (a mod 10 = b mod 10)%N.
Proof.
  unfold telemetry.digit. intros H. apply (f_equal N_of_ascii) in H.
  rewrite !N_ascii_embedding in H
    by (pose proof (N.mod_upper_bound a 10); pose proof (N.mod_upper_bound b 10); lia).
  lia.
Qed.

Lemma digit_not_dot n : Ascii.eqb (telemetry.digit n) "."%char = false.
Proof.
  apply Ascii.eqb_neq. unfold telemetry.digit. intros H.
  apply (f_equal N_of_ascii) in H.
  rewrite N_ascii_embedding in H by (pose proof (N.mod_upper_bound n 10); lia).
  change (N_of_ascii ".") with 46%N in H.
  pose proof (N.le_0_l (n mod 10)). lia.
Qed.

Lemma pad2_inj a b :
  (a < 100)%N -> (b < 100)%N -> telemetry.pad2 a = telemetry.pad2 b -> a = b.
Proof.
  unfold telemetry.pad2. intros Ha Hb [= H1%digit_inj H2%digit_inj].
  rewrite !N.mod_small in H1 by (apply N.Div0.div_lt_upper_bound; lia).
  rewrite (N.div_mod a 10), (N.div_mod b 10) by lia. congruence.
Qed.

Lemma pad4_inj a b :
  (a < 10000)%N -> (b < 10000)%N -> telemetry.pad4 a = telemetry.pad4 b -> a = b.
Proof.
  unfold telemetry.pad4.
  intros Ha Hb [= H1%digit_inj H2%digit_inj H3%digit_inj H4%digit_inj].
  rewrite <- (N.mod_small a 10000), <- (N.mod_small b 10000) by done.
  change 10000%N with (10 * (10 * (10 * 10)))%N. rewrite !N.Div0.mod_mul_r.
  rewrite !N.Div0.div_div. change (10 * 10)%N with 100%N.
  change (100 * 10)%N with 1000%N. congruence.
Qed.

(** [split('.')[0]] removes the fraction and nothing else. *)
Lemma split_head_isoformat t :
  telemetry.split_head "."%char (telemetry.isoformat t) = telemetry.isoformat_seconds t.
Proof.
  unfold telemetry.isoformat, telemetry.isoformat_seconds,
    telemetry.pad4, telemetry.pad2. simpl.
  rewrite !digit_not_dot. simpl.
  destruct (telemetry.microsecond t =? 0)%N; simpl;
    rewrite ?digit_not_dot; reflexivity.
Qed.

Lemma current_time_stamp_seconds t :
  telemetry.current_time_stamp t = telemetry.isoformat_seconds t +:+ "Z".
Proof. unfold telemetry.current_time_stamp. by rewrite split_head_isoformat. Qed.

(** Two valid clock readings get the same stamp exactly when they agree
    down to the second. *)
Lemma current_time_stamp_eq t1 t2 :
  telemetry.valid_datetime t1 -> telemetry.valid_datetime t2 ->
  telemetry.current_time_stamp t1 = telemetry.current_time_stamp t2
  <-> telemetry.same_second t1 t2.
Proof.
  intros V1 V2. rewrite !current_time_stamp_seconds.
  unfold telemetry.same_second, telemetry.valid_datetime in *. split.
  - unfold telemetry.isoformat_seconds, telemetry.pad4, telemetry.pad2. simpl.
    intros [= Y1 Y2 Y3 Y4 M1 M2 D1 D2 h1 h2 m1 m2 s1 s2].
    split; [apply pad4_inj;
            [lia|lia|unfold telemetry.pad4, telemetry.pad2; congruence]|].
    repeat split;
      (apply pad2_inj; [lia|lia|unfold telemetry.pad2; congruence]).
  - intros (Hy & Hm & Hd & Hh & Hmi & Hs).
    unfold telemetry.isoformat_seconds. by rewrite Hy, Hm, Hd, Hh, Hmi, Hs.
Qed.

Section Stamping.
Import telemetry.

Variable get_monitor : string -> string -> Telemetry -> bool -> Monitor.
Variable run_update_data : string -> Monitor -> Monitor.
Variable model_validate : gmap string py.PyVal -> option TelemetryPayloadAttributes.
Variable update :
  TelemetryPayloadAttributes -> gmap string py.PyVal -> TelemetryPayloadAttributes.

(** Every run that returns has stamped its payload with the clock reading
    cut to the second. *)
Lemma run_stamps now others self self' :
  run get_monitor run_update_data model_validate update now others self
    = (self', py.Returned) ->
  current_time (_local_telemetry self') = Some (current_time_stamp now).
Proof.
  intros Hrun.
  destruct (run_reaches_delivery _ _ _ _ _ _ _ _ _ Hrun)
    as (ready & _ & Hstamp & Hwrite); [done|].
  pose proof (write_to_agent_queue_payload others ready) as Hp.
  rewrite Hwrite in Hp. simpl in Hp. by rewrite Hp.
Qed.

(** How far the stamp separates two runs.  Every run that returns stamps
    [current_time] with the UTC clock reading cut to whole seconds, whatever
    the monitors reported; the stamps, and with them the payloads, of two
    consecutive successful runs differ when the two clock readings differ in
    their date or time down to the second. *)
Theorem consecutive_runs_current_time now1 now2 others1 others2 self self1 self2 :
  valid_datetime now1 -> valid_datetime now2 ->
  ~ same_second now1 now2 ->
  run get_monitor run_update_data model_validate update now1 others1 self
    = (self1, py.Returned) ->
  run get_monitor run_update_data model_validate update now2 others2 self1
    = (self2, py.Returned) ->
  current_time (_local_telemetry self1) = Some (current_time_stamp now1) /\
  current_time (_local_telemetry self2) = Some (current_time_stamp now2) /\
  current_time (_local_telemetry self1) <> current_time (_local_telemetry self2) /\
  _local_telemetry self1 <> _local_telemetry self2.
Proof.
  intros V1 V2 Hdiff H1%run_stamps H2%run_stamps.
  assert (Hne : current_time (_local_telemetry self1)
                <> current_time (_local_telemetry self2)).
  { rewrite H1, H2. intros [= Heq].
    by apply Hdiff, (current_time_stamp_eq now1 now2 V1 V2). }
  split; [done|]. split; [done|]. split; [done|].
  intros Heq. apply Hne. by rewrite Heq.
Qed.

End Stamping.

(** C7.  The code does not keep what the comment above the stamp promises
    ("We make sure at least one field changes so telemetry is always sent"):
    two consecutive runs half a second apart, at 07:08:09.2 and 07:08:09.7
    of the same day, both return and both stamp [current_time] with
    2024-01-05T07:08:09Z, the clock reading cut to whole seconds; the monitor
    data being unchanged, no field changes and the two payloads are equal. *)
Lemma consecutive_runs_same_payload :
  let run_at now :=
    telemetry.run examples.fresh_monitor examples.idle_update
      examples.accept_all examples.merge_fields now telemetry.quiet in
  let first := run_at examples.at_9_2 examples.telemetry_host in
  let second := run_at examples.at_9_7 (fst first) in
  telemetry.valid_datetime examples.at_9_2 /\
  telemetry.valid_datetime examples.at_9_7 /\
  telemetry.earlier examples.at_9_2 examples.at_9_7 /\
  snd first = py.Returned /\
  snd second = py.Returned /\
  telemetry.current_time (telemetry._local_telemetry (fst first))
    = Some "2024-01-05T07:08:09Z" /\
  telemetry.current_time (telemetry._local_telemetry (fst second))
    = Some "2024-01-05T07:08:09Z" /\
  telemetry._local_telemetry (fst first) = telemetry._local_telemetry (fst second).
Proof.
  split; [|split; [|split]].
  - unfold telemetry.valid_datetime; simpl; lia.
  - unfold telemetry.valid_datetime; simpl; lia.
  - unfold telemetry.earlier, telemetry.clock_key; simpl; lia.
  - vm_compute. repeat split.
Qed.

(** Two runs one second apart are stamped differently. *)
Lemma consecutive_runs_current_time_witness :
  let run_at now :=
    telemetry.run examples.fresh_monitor examples.idle_update
      examples.accept_all examples.merge_fields now telemetry.quiet in
  let first := run_at examples.at_9_2 examples.telemetry_host in
  let second := run_at examples.at_10_2 (fst first) in
  telemetry.current_time (telemetry._local_telemetry (fst first))
    <> telemetry.current_time (telemetry._local_telemetry (fst second)).
Proof.
  intros run_at first second.
  assert (H1 : first = (fst first, py.Returned)) by (vm_compute; reflexivity).
  assert (H2 : second = (fst second, py.Returned)) by (vm_compute; reflexivity).
  assert (V1 : telemetry.valid_datetime examples.at_9_2)
    by (unfold telemetry.valid_datetime; simpl; lia).
  assert (V2 : telemetry.valid_datetime examples.at_10_2)
    by (unfold telemetry.valid_datetime; simpl; lia).
  assert (Hdiff : ~ telemetry.same_second examples.at_9_2 examples.at_10_2).
  { unfold telemetry.same_second; simpl. intros (_ & _ & _ & _ & _ & H).
    discriminate. }
  exact (proj1 (proj2 (proj2
    (consecutive_runs_current_time
       examples.fresh_monitor examples.idle_update examples.accept_all
       examples.merge_fields examples.at_9_2 examples.at_10_2
       telemetry.quiet telemetry.quiet examples.telemetry_host
       (fst first) (fst second) V1 V2 Hdiff H1 H2)))).
Defined.

(** ** Insertion-ordered dictionaries *)

Lemma dict_get_set_eq {V} (d : list (string * V)) k v :
  telemetry.dict_get (telemetry.dict_set d k v) k = Some v.
Proof.
  induction d as [|[k' v'] d IH]; simpl.
  - by rewrite decide_True.
  - destruct (decide (k' = k)) as [->|Hne]; simpl.
    + by rewrite decide_True.
    + by rewrite decide_False.
Qed.

Lemma dict_get_set_ne {V} (d : list (string * V)) k k' v :
  k <> k' ->
  telemetry.dict_get (telemetry.dict_set d k v) k' = telemetry.dict_get d k'.
Proof.
  intros Hne. induction d as [|[k0 v0] d IH]; simpl.
  - by rewrite decide_False.
  - destruct (decide (k0 = k)) as [->|Hne0]; simpl.
    + by rewrite !decide_False.
    + by rewrite IH.
Qed.

Lemma dict_set_keys {V} (d : list (string * V)) k v :
  k ∈ telemetry.keys d ->
  telemetry.keys (telemetry.dict_set d k v) = telemetry.keys d.
Proof.
  unfold telemetry.keys. induction d as [|[k0 v0] d IH]; simpl.
  - by intros ?%elem_of_nil.
  - intros Hin. destruct (decide (k0 = k)) as [->|Hne0]; simpl; [done|].
    f_equal. apply IH. apply elem_of_cons in Hin as [?|?]; [congruence|done].
Qed.

Lemma dict_get_keys {V} (d : list (string * V)) k v :
  telemetry.dict_get d k = Some v -> k ∈ telemetry.keys d.
Proof.
  unfold telemetry.keys. induction d as [|[k0 v0] d IH]; simpl; [done|].
  destruct (decide (k0 = k)) as [->|Hne0]; intros H.
  - apply elem_of_cons; by left.
  - apply elem_of_cons; right. by apply IH.
Qed.

Lemma dict_get_app_cons {V} (pre post : list (string * V)) k v :
  k ∉ telemetry.keys pre ->
  telemetry.dict_get (pre ++ (k, v) :: post) k = Some v.
Proof.
  unfold telemetry.keys. induction pre as [|[k0 v0] pre IH]; simpl.
  - intros _. by rewrite decide_True.
  - intros Hnotin. apply not_elem_of_cons in Hnotin as [Hne Hnotin].
    rewrite decide_False by done. by apply IH.
Qed.

Lemma dict_get_split {V} (d : list (string * V)) k v :
  telemetry.dict_get d k = Some v ->
  exists pre post, d = pre ++ (k, v) :: post /\ k ∉ telemetry.keys pre.
Proof.
  unfold telemetry.keys. induction d as [|[k0 v0] d IH]; simpl; [done|].
  destruct (decide (k0 = k)) as [->|Hne0].
  - intros [= ->]. exists [], d. split; [done|]. apply not_elem_of_nil.
  - intros (pre & post & -> & Hnotin)%IH.
    exists ((k0, v0) :: pre), post. split; [done|].
    simpl. apply not_elem_of_cons. split; [congruence|done].
Qed.

(** ** [_check_monitors_health] *)

Section Health.
Import telemetry.

Variable get_monitor : string -> string -> Telemetry -> bool -> Monitor.
Variable run_update_data : string -> Monitor -> Monitor.

(** One pass of the loop keeps the keys of the registry and touches no
    entry but the one it visits. *)
Lemma check_monitor_keys self item :
  fst item ∈ keys (monitor_list self) ->
  keys (monitor_list (check_monitor get_monitor run_update_data self item))
    = keys (monitor_list self).
Proof.
  destruct item as [n m]; simpl. intros Hin.
  destruct (is_thread m); [destruct (is_thread_creation_needed n m)|]; simpl;
    try done; by apply dict_set_keys.
Qed.

Lemma check_monitor_other self item k :
  fst item <> k ->
  dict_get (monitor_list (check_monitor get_monitor run_update_data self item)) k
    = dict_get (monitor_list self) k.
Proof.
  destruct item as [n m]; simpl. intros Hne.
  destruct (is_thread m); [destruct (is_thread_creation_needed n m)|]; simpl;
    try done; by apply dict_get_set_ne.
Qed.

Lemma check_monitors_keys items self :
  (forall item, item ∈ items -> fst item ∈ keys (monitor_list self)) ->
  keys (monitor_list (fold_left (check_monitor get_monitor run_update_data) items self))
    = keys (monitor_list self).
Proof.
  revert self. induction items as [|item items IH]; intros self Hin; simpl; [done|].
  assert (Hitem : fst item ∈ keys (monitor_list self)).
  { apply Hin. apply elem_of_cons; by left. }
  rewrite IH; [by apply check_monitor_keys|].
  intros item' Hin'. rewrite check_monitor_keys by done.
  apply Hin. apply elem_of_cons; by right.
Qed.

Lemma check_monitors_other items self k :
  k ∉ keys items ->
  dict_get (monitor_list (fold_left (check_monitor get_monitor run_update_data) items self)) k
    = dict_get (monitor_list self) k.
Proof.
  revert self. induction items as [|item items IH]; intros self Hnotin; simpl; [done|].
  unfold keys in Hnotin. simpl in Hnotin.
  apply not_elem_of_cons in Hnotin as [Hne Hnotin].
  rewrite IH by done. apply check_monitor_other. congruence.
Qed.

(** The item of a dead threaded monitor is replaced by a started new
    instance, which the rest of the pass leaves in place. *)
Lemma check_monitors_recreates pre post self monitor_name it_monitor :
  monitor_name ∉ keys post ->
  is_thread it_monitor = true ->
  is_alive it_monitor = false ->
  let during :=
    logger (fold_left (check_monitor get_monitor run_update_data) pre self)
      (py.LogInfo ("Recreating " +:+ monitor_name +:+ " thread.")) in
  dict_get
    (monitor_list
       (fold_left (check_monitor get_monitor run_update_data)
          (pre ++ (monitor_name, it_monitor) :: post) self))
    monitor_name
  = Some (start (get_monitor monitor_name monitor_name during true)).
Proof.
  intros Hpost Hthread Halive during.
  rewrite fold_left_app. simpl.
  rewrite check_monitors_other by done.
  unfold is_thread_creation_needed. rewrite Hthread, Halive. simpl.
  apply dict_get_set_eq.
Qed.

(** C2 (amended).  After a health-check pass, the registry has the keys it
    had, each once, and the name of a threaded monitor that was found not
    alive is mapped to one started instance: the one the monitor's
    constructor has just built.  Nothing of the dead instance is carried
    over; in particular the new entry's [error_count] is the one the
    constructor gives. *)
Theorem check_monitors_health_recreates self monitor_name it_monitor :
  NoDup (keys (monitor_list self)) ->
  dict_get (monitor_list self) monitor_name = Some it_monitor ->
  is_thread it_monitor = true ->
  is_alive it_monitor = false ->
  let self' := _check_monitors_health get_monitor run_update_data self in
  keys (monitor_list self') = keys (monitor_list self) /\
  NoDup (keys (monitor_list self')) /\
  monitor_name ∈ keys (monitor_list self') /\
  exists (during : Telemetry) (monitor : Monitor),
    monitor = get_monitor monitor_name monitor_name during true /\
    dict_get (monitor_list self') monitor_name = Some (start monitor) /\
    is_alive (start monitor) = true /\
    error_count (start monitor) = error_count monitor.
Proof.
  intros Hnodup Hget Hthread Halive self'.
  assert (Hkeys : keys (monitor_list self') = keys (monitor_list self)).
  { apply check_monitors_keys. intros [k v] Hin. simpl.
    unfold keys. apply list_elem_of_fmap. by exists (k, v). }
  split; [done|]. split; [by rewrite Hkeys|].
  split; [rewrite Hkeys; by eapply dict_get_keys|].
  destruct (dict_get_split _ _ _ Hget) as (pre & post & Hsplit & Hpre).
  assert (Hpost : monitor_name ∉ keys post).
  { unfold keys in *. rewrite Hsplit, map_app in Hnodup. simpl in Hnodup.
    apply NoDup_app in Hnodup as (_ & _ & Hnodup).
    by apply NoDup_cons in Hnodup as [? _]. }
  exists (logger (fold_left (check_monitor get_monitor run_update_data) pre self)
            (py.LogInfo ("Recreating " +:+ monitor_name +:+ " thread."))).
  eexists. split; [done|]. split; [|done].
  subst self'. unfold _check_monitors_health.
  pose proof (check_monitors_recreates pre post self monitor_name it_monitor
                Hpost Hthread Halive) as Hnew.
  by rewrite <- Hsplit in Hnew.
Qed.

End Health.

(** C2 (as stated) fails: the registry holds a threaded monitor that
    recorded three errors before its thread died; after the health check
    the name is mapped to a started instance whose [error_count] is the 0 of
    a new instance, not 3. *)
Lemma recreation_resets_error_count :
  let self' :=
    telemetry._check_monitors_health examples.fresh_monitor
      examples.idle_update examples.telemetry_dead in
  telemetry.dict_get (telemetry.monitor_list examples.telemetry_dead) "network"
    = Some examples.dead_monitor /\
  telemetry.is_thread examples.dead_monitor = true /\
  telemetry.is_alive examples.dead_monitor = false /\
  telemetry.error_count examples.dead_monitor = 3 /\
  telemetry.is_alive <$> telemetry.dict_get (telemetry.monitor_list self') "network"
    = Some true /\
  telemetry.error_count <$> telemetry.dict_get (telemetry.monitor_list self') "network"
    = Some 0.
Proof. vm_compute. repeat split. Qed.

(** The amended statement on that registry. *)
Lemma check_monitors_health_recreates_witness :
  "network" ∈ telemetry.keys (telemetry.monitor_list
     (telemetry._check_monitors_health examples.fresh_monitor
        examples.idle_update examples.telemetry_dead)).
Proof.
  refine (proj1 (proj2 (proj2
    (check_monitors_health_recreates examples.fresh_monitor
       examples.idle_update examples.telemetry_dead "network"
       examples.dead_monitor _ eq_refl eq_refl eq_refl)))).
  vm_compute.
  solve_NoDup.
Defined.

(** ** [_collect_monitor_metrics] *)

Lemma collect_monitors_app pre post st :
  telemetry.collect_monitors (pre ++ post) st
  = telemetry.collect_monitors post (telemetry.collect_monitors pre st).
Proof. apply fold_left_app. Qed.

(** A monitor whose data is updated and whose collection returns has its
    contribution merged: the mapping goes on as the monitor left it, and
    nothing is logged. *)
Lemma collect_monitor_merged it_monitor temp_dict temp_dict' records :
  telemetry.updated it_monitor = true ->
  telemetry.populate_nb_report it_monitor temp_dict = telemetry.Done temp_dict' ->
  telemetry.collect_monitor (temp_dict, records) it_monitor = (temp_dict', records).
Proof. intros Hup Hpop. unfold telemetry.collect_monitor. by rewrite Hup, Hpop. Qed.

(** The records already logged stay, in order. *)
Lemma collect_monitors_log monitors temp_dict records :
  exists more,
    snd (telemetry.collect_monitors monitors (temp_dict, records)) = records ++ more.
Proof.
  revert temp_dict records.
  induction monitors as [|m monitors IH]; intros temp_dict records; simpl.
  - exists []. by rewrite app_nil_r.
  - unfold telemetry.collect_monitors in *. simpl.
    destruct (telemetry.updated m);
      [destruct (telemetry.populate_nb_report m temp_dict) as [d|d]|].
    + apply IH.
    + destruct (IH d (records ++ [py.LogException
        ("Error retrieving data from monitor " +:+ telemetry.name m +:+ ".")]))
        as [more ->].
      eexists. by rewrite <- app_assoc.
    + destruct (IH temp_dict (records ++ [py.LogInfo
        ("Data not updated yet in monitor " +:+ telemetry.name m)]))
        as [more ->].
      eexists. by rewrite <- app_assoc.
Qed.

(** The mapping collected does not depend on what was logged. *)
Lemma collect_monitors_mapping monitors temp_dict records records' :
  fst (telemetry.collect_monitors monitors (temp_dict, records))
  = fst (telemetry.collect_monitors monitors (temp_dict, records')).
Proof.
  revert temp_dict records records'.
  induction monitors as [|m monitors IH]; intros temp_dict records records';
    [done|].
  unfold telemetry.collect_monitors in *. simpl.
  destruct (telemetry.updated m);
    [destruct (telemetry.populate_nb_report m temp_dict) as [d|d]|]; apply IH.
Qed.

(** C8.  In a pass of [_collect_monitor_metrics] over the monitors
    [pre ++ it_monitor :: post], a monitor whose data is not marked updated,
    or whose collection raises, does not stop the pass: one record is logged
    for it (info, respectively exception), and the pass goes on over the
    monitors after it from the mapping collected so far, so that every
    monitor before and after it is collected as it would be without it.
    The mapping is left untouched by a monitor that is not updated, and as
    the raising monitor left it otherwise; whenever the skipped monitor left
    the mapping as it found it, the mapping collected by the whole pass is
    the one collected from the other monitors alone. *)
Theorem collect_monitor_metrics_skips pre it_monitor post st :
  let before := telemetry.collect_monitors pre st in
  telemetry.updated it_monitor = false \/
  (exists temp_dict,
     telemetry.updated it_monitor = true /\
     telemetry.populate_nb_report it_monitor (fst before)
       = telemetry.Failed temp_dict) ->
  exists left_dict record,
    telemetry.collect_monitors (pre ++ it_monitor :: post) st
      = telemetry.collect_monitors post (left_dict, snd before ++ [record]) /\
    record ∈ snd (telemetry.collect_monitors (pre ++ it_monitor :: post) st) /\
    (telemetry.updated it_monitor = false ->
       left_dict = fst before /\
       record = py.LogInfo
         ("Data not updated yet in monitor " +:+ telemetry.name it_monitor)) /\
    (forall temp_dict,
       telemetry.updated it_monitor = true ->
       telemetry.populate_nb_report it_monitor (fst before)
         = telemetry.Failed temp_dict ->
       left_dict = temp_dict /\
       record = py.LogException
         ("Error retrieving data from monitor " +:+ telemetry.name it_monitor +:+ ".")) /\
    (left_dict = fst before ->
       fst (telemetry.collect_monitors (pre ++ it_monitor :: post) st)
         = fst (telemetry.collect_monitors (pre ++ post) st)).
Proof.
  intros before Hskip.
  assert (Hstep : exists left_dict record,
    telemetry.collect_monitor before it_monitor = (left_dict, snd before ++ [record]) /\
    (telemetry.updated it_monitor = false ->
       left_dict = fst before /\
       record = py.LogInfo
         ("Data not updated yet in monitor " +:+ telemetry.name it_monitor)) /\
    (forall temp_dict,
       telemetry.updated it_monitor = true ->
       telemetry.populate_nb_report it_monitor (fst before)
         = telemetry.Failed temp_dict ->
       left_dict = temp_dict /\
       record = py.LogException
         ("Error retrieving data from monitor " +:+ telemetry.name it_monitor +:+ "."))).
  { destruct before as [temp_dict records]. unfold telemetry.collect_monitor.
    simpl in *. destruct Hskip as [Hup|(d & Hup & Hpop)].
    - rewrite Hup. do 2 eexists. split; [done|]. split; [done|].
      intros ? [=].
    - rewrite Hup, Hpop. do 2 eexists. split; [done|]. split; [intros [=]|].
      by intros d' _ [= <-]. }
  destruct Hstep as (left_dict & record & Hstep & Hinfo & Hexc).
  exists left_dict, record.
  assert (Hpass : telemetry.collect_monitors (pre ++ it_monitor :: post) st
    = telemetry.collect_monitors post (left_dict, snd before ++ [record])).
  { rewrite collect_monitors_app. fold before.
    unfold telemetry.collect_monitors at 1. simpl. by rewrite Hstep. }
  split; [done|]. split; [|split; [done|split; [done|]]].
  - rewrite Hpass.
    destruct (collect_monitors_log post left_dict (snd before ++ [record]))
      as [more ->].
    apply elem_of_app; left. apply elem_of_app; right.
    by apply list_elem_of_singleton.
  - intros ->. rewrite Hpass, collect_monitors_app. fold before.
    destruct before as [temp_dict records]. simpl.
    apply collect_monitors_mapping.
Qed.

(** The statement of C8 on a pass over four monitors of which the second
    raises and the third is not updated: the fields of the first and of the
    last are collected. *)
Lemma collect_monitor_metrics_skips_witness :
  fst (telemetry.collect_monitors
         ([examples.host_monitor] ++ examples.failing_monitor
            :: [examples.stale_monitor; examples.os_monitor]) (∅, []))
  = fst (telemetry.collect_monitors
           ([examples.host_monitor]
              ++ [examples.stale_monitor; examples.os_monitor]) (∅, [])).
Proof.
  destruct (collect_monitor_metrics_skips [examples.host_monitor]
              examples.failing_monitor
              [examples.stale_monitor; examples.os_monitor] (∅, []))
    as (left_dict & record & _ & _ & _ & Hexc & Hsame).
  { right. eexists. split; reflexivity. }
  apply Hsame. by destruct (Hexc _ eq_refl eq_refl) as [-> _].
Defined.

(** ** [WorkerManager.add_worker] *)

Section Manager.

Variable AgentWorker : Type.
Variable new_AgentWorker :
  Z -> manager.PyObject -> manager.InitParams -> list string -> AgentWorker.

(** Adding under a key that is present changes nothing, evaluates to [None]
    and logs one info record. *)
Lemma add_worker_registered (self : manager.WorkerManager AgentWorker)
    period worker_type init_params actions :
  is_Some (manager.registered_workers self
             !! manager.__class____name__ worker_type) ->
  manager.add_worker new_AgentWorker self period worker_type init_params actions
  = manager.mkCall AgentWorker self py.VNone
      [py.LogInfo ("Worker " +:+ manager.__class____name__ worker_type
                   +:+ " already registered")].
Proof. intros [w Hw]. unfold manager.add_worker. by rewrite Hw. Qed.

(** Adding under a key that is absent stores the new worker under it and
    evaluates to [None] as well. *)
Lemma add_worker_fresh (self : manager.WorkerManager AgentWorker)
    period worker_type init_params actions :
  manager.registered_workers self !! manager.__class____name__ worker_type = None ->
  manager.add_worker new_AgentWorker self period worker_type init_params actions
  = manager.mkCall AgentWorker
      (manager.mkWorkerManager
         (<[manager.__class____name__ worker_type :=
              new_AgentWorker period worker_type init_params actions]>
            (manager.registered_workers self)))
      py.VNone [].
Proof. intros Hw. unfold manager.add_worker. by rewrite Hw. Qed.

Lemma plain_class_key worker_type :
  manager.plain_class worker_type ->
  manager.__class____name__ worker_type = "type".
Proof. by intros [n ->]. Qed.

Lemma add_workers_registered (self : manager.WorkerManager AgentWorker)
    period init_params actions worker_types :
  is_Some (manager.registered_workers self !! "type") ->
  Forall manager.plain_class worker_types ->
  manager.add_workers new_AgentWorker self period init_params actions worker_types
  = self.
Proof.
  intros Hreg Hplain. induction Hplain as [|t ts Ht _ IH]; [done|].
  unfold manager.add_workers in *. simpl.
  rewrite add_worker_registered by (by rewrite plain_class_key). by simpl.
Qed.

(** C10.  [add_worker] keys the registry by the name of the type of its
    argument: for a class that is the name of its metaclass, ["type"] for
    every class without a metaclass of its own.  The first registration of
    such a class in an empty registry stores one entry, under ["type"];
    every later call with any such class finds that key and registers
    nothing, so that after any series of such calls the registry holds the
    first worker alone. *)
Theorem add_worker_keys_by_metaclass first others period init_params actions :
  manager.plain_class first ->
  Forall manager.plain_class others ->
  manager.__class____name__ first = "type" /\
  manager.registered_workers
    (manager.self_after
       (manager.add_worker new_AgentWorker manager.new_WorkerManager
          period first init_params actions))
  = {[ "type" := new_AgentWorker period first init_params actions ]} /\
  (forall (self : manager.WorkerManager AgentWorker) worker_type period'
          init_params' actions',
     manager.plain_class worker_type ->
     is_Some (manager.registered_workers self !! "type") ->
     manager.self_after
       (manager.add_worker new_AgentWorker self period' worker_type
          init_params' actions') = self) /\
  manager.registered_workers
    (manager.add_workers new_AgentWorker manager.new_WorkerManager
       period init_params actions (first :: others))
  = {[ "type" := new_AgentWorker period first init_params actions ]} /\
  size (manager.registered_workers
          (manager.add_workers new_AgentWorker manager.new_WorkerManager
             period init_params actions (first :: others))) = 1.
Proof.
  intros Hfirst Hothers.
  pose proof (plain_class_key first Hfirst) as Hkey.
  assert (Hone : manager.add_worker new_AgentWorker manager.new_WorkerManager
                   period first init_params actions
                 = manager.mkCall AgentWorker
                     (manager.mkWorkerManager
                        {[ "type" := new_AgentWorker period first init_params actions ]})
                     py.VNone []).
  { rewrite add_worker_fresh by (simpl; apply lookup_empty).
    by rewrite Hkey. }
  assert (Hall : manager.add_workers new_AgentWorker manager.new_WorkerManager
                   period init_params actions (first :: others)
                 = manager.mkWorkerManager
                     {[ "type" := new_AgentWorker period first init_params actions ]}).
  { unfold manager.add_workers. simpl. rewrite Hone. simpl.
    apply add_workers_registered; [|done].
    simpl. rewrite lookup_singleton_eq. by eexists. }
  split; [done|]. split; [by rewrite Hone|]. split; [|split].
  - intros self worker_type period' init_params' actions' Hplain Hreg.
    rewrite add_worker_registered by (by rewrite plain_class_key). done.
  - by rewrite Hall.
  - rewrite Hall. simpl. apply map_size_singleton.
Qed.

End Manager.

(** The statement of C10 for the classes [Telemetry] and [Commissioner]:
    only the first is registered, under ["type"]. *)
Lemma add_worker_keys_by_metaclass_witness :
  manager.registered_workers
    (manager.add_workers examples.mkStoredWorker manager.new_WorkerManager
       60 ([], []) ["run"]
       [examples.TelemetryClass; examples.CommissionerClass])
  = {[ "type" :=
         examples.mkStoredWorker 60 examples.TelemetryClass ([], []) ["run"] ]}.
Proof.
  refine (proj1 (proj2 (proj2 (proj2
    (add_worker_keys_by_metaclass _ examples.mkStoredWorker
       examples.TelemetryClass [examples.CommissionerClass]
       60 ([], []) ["run"] _ _))))).
  - by exists "Telemetry".
  - apply Forall_cons; split; [by exists "Commissioner"|apply Forall_nil_2].
Defined.

(** C5.  Registering the class [Telemetry] a second time changes nothing in
    the registry, logs one record and does not raise, but the call
    evaluates to [None], which is not the boolean [False]; the first,
    successful registration evaluates to [None] too, so the value tells the
    caller nothing, where the repository's [test_add_worker] asserts a true
    result on success and a false one on a duplicate. *)
Theorem add_worker_duplicate_returns_none :
  let first :=
    manager.add_worker examples.mkStoredWorker manager.new_WorkerManager
      60 examples.TelemetryClass ([], []) ["run"] in
  let again :=
    manager.add_worker examples.mkStoredWorker (manager.self_after first)
      60 examples.TelemetryClass ([], []) ["run"] in
  manager.self_after again = manager.self_after first /\
  size (manager.registered_workers (manager.self_after again)) = 1 /\
  manager.logged again = [py.LogInfo "Worker type already registered"] /\
  manager.result again = py.VNone /\
  manager.result again <> py.VBool false /\
  manager.result first = py.VNone /\
  py.truthy (manager.result first) = false.
Proof.
  assert (Hfirst : manager.add_worker examples.mkStoredWorker
                     manager.new_WorkerManager 60 examples.TelemetryClass
                     ([], []) ["run"]
                   = manager.mkCall _
                       (manager.mkWorkerManager
                          {[ "type" := examples.mkStoredWorker 60
                               examples.TelemetryClass ([], []) ["run"] ]})
                       py.VNone []).
  { by rewrite add_worker_fresh by (simpl; apply lookup_empty). }
  simpl. rewrite Hfirst. simpl.
  rewrite add_worker_registered
    by (simpl; rewrite lookup_singleton_eq; by eexists).
  simpl. repeat split; try done.
Qed.

(** The two calls of the repository's [test_add_worker], on this
    [add_worker]: with the key present the result is falsy, as the test
    asserts, and the record is logged at level info, where the test expects
    a warning; with the key absent the worker is registered under the name
    of the argument's type and the result is falsy, where the test asserts a
    true result. *)
Lemma test_add_worker :
  let mock_name := manager.InstanceOf "mock_type_name" in
  let registered : manager.WorkerManager examples.StoredWorker :=
    manager.mkWorkerManager
      {[ "mock_type_name" :=
           examples.mkStoredWorker 0 mock_name ([], []) [] ]} in
  let duplicate :=
    manager.add_worker examples.mkStoredWorker registered 60 mock_name
      ([], []) ["mock_action"] in
  let mock_name_2 := manager.InstanceOf "mock_type_name_2" in
  let added :=
    manager.add_worker examples.mkStoredWorker manager.new_WorkerManager 60
      mock_name_2 ([], []) ["mock_action"] in
  py.truthy (manager.result duplicate) = false /\
  manager.self_after duplicate = registered /\
  manager.logged duplicate
    = [py.LogInfo "Worker mock_type_name already registered"] /\
  py.truthy (manager.result added) = false /\
  size (manager.registered_workers (manager.self_after added)) = 1 /\
  is_Some (manager.registered_workers (manager.self_after added)
             !! "mock_type_name_2").
Proof.
  simpl.
  rewrite add_worker_registered
    by (simpl; rewrite lookup_singleton_eq; by eexists).
  rewrite add_worker_fresh by (simpl; apply lookup_empty).
  simpl. repeat split; done.
Qed.

(** ** Traffic counters *)

(** The model answers the polls of the repository's
    [test_read_traffic_data] as the test asserts: an unreadable directory
    and unreadable interfaces give no report; the first readings report 0
    and set the baseline; later readings report the advance; readings below
    the baseline are reported as they are and become the baseline; with a
    persisted record and readings below the baseline, the report is the
    record plus the readings and the record becomes the carry. *)
Lemma test_read_traffic_data :
  let start := network.mkNetworkMonitor ∅ in
  let first :=
    network.read_traffic_data start None
      (examples.sysfs [("iface1", (1, 2)%Z); ("iface2", (3, 4)%Z)]) in
  let second :=
    network.read_traffic_data (fst first) None
      (examples.sysfs [("iface1", (10, 10)%Z); ("iface2", (20, 20)%Z)]) in
  let third :=
    network.read_traffic_data (fst second) None
      (examples.sysfs [("iface1", (0, 1)%Z); ("iface2", (2, 3)%Z)]) in
  let fourth :=
    network.read_traffic_data (fst third) (Some examples.previous_net_stats)
      (examples.sysfs [("iface1", (0, 0)%Z); ("iface2", (1, 1)%Z)]) in
  snd (network.read_traffic_data start None None) = [] /\
  snd (network.read_traffic_data start None (Some [])) = [] /\
  snd (network.read_traffic_data start None
         (Some [("iface1", None); ("iface2", None)])) = [] /\
  snd first = [("iface1", network.mkNetStats 0 0);
               ("iface2", network.mkNetStats 0 0)] /\
  network.first_net_stats (fst first)
    = {[ "iface1" := network.mkFirstNetStats 2 1 0 0;
         "iface2" := network.mkFirstNetStats 4 3 0 0 ]} /\
  snd second = [("iface1", network.mkNetStats 8 9);
                ("iface2", network.mkNetStats 16 17)] /\
  network.first_net_stats (fst second) = network.first_net_stats (fst first) /\
  snd third = [("iface1", network.mkNetStats 1 0);
               ("iface2", network.mkNetStats 3 2)] /\
  network.first_net_stats (fst third)
    = {[ "iface1" := network.mkFirstNetStats 1 0 0 0;
         "iface2" := network.mkFirstNetStats 3 2 0 0 ]} /\
  snd fourth = [("iface1", network.mkNetStats 1 1);
                ("iface2", network.mkNetStats 3 3)] /\
  network.first_net_stats (fst fourth)
    = {[ "iface1" := network.mkFirstNetStats 0 0 1 1;
         "iface2" := network.mkFirstNetStats 1 1 2 2 ]}.
Proof.
  intros start first second third fourth.
  repeat apply conj; vm_compute; reflexivity.
Qed.

(** C4.  From a cold start of one interface (no persisted record, no
    baseline), the polls with raw (tx, rx) = (2, 1), (10, 9) and (1, 0)
    report (0, 0), then (8, 8) with the baseline unchanged at (2, 1), then,
    the readings being below the baseline and the carry reset to 0, (1, 0)
    with the new baseline (1, 0). *)
Theorem cold_start_poll_sequence :
  let first := network.poll None None 2 1 in
  let second := network.poll None (Some (fst first)) 10 9 in
  let third := network.poll None (Some (fst second)) 1 0 in
  snd first = (0, 0)%Z /\
  network.baseline (fst first) = (2, 1)%Z /\
  snd second = (8, 8)%Z /\
  network.baseline (fst second) = (2, 1)%Z /\
  fst second = fst first /\
  snd third = (1, 0)%Z /\
  network.carry (fst third) = (0, 0)%Z /\
  network.baseline (fst third) = (1, 0)%Z.
Proof. vm_compute. repeat split. Qed.

(** C3 (as stated) fails: with the baseline (2, 1), carry 0 and no persisted
    record, the readings (1, 0) are below the baseline; the new carry is 0
    and the baseline (1, 0), but the value reported is (1, 0), not
    carry + 0 = (0, 0).  With the persisted record (2, 2) and the baseline
    (3, 2), the readings (1, 1) are reported as (3, 3), not as the carry
    (2, 2). *)
Lemma reset_cycle_reports_carry_plus_raw :
  let no_record :=
    network.poll None (Some (network.mkFirstNetStats 2 1 0 0)) 1 0 in
  let with_record :=
    network.poll (Some (network.mkNetStats 2 2))
      (Some (network.mkFirstNetStats 3 2 0 0)) 1 1 in
  network.carry (fst no_record) = (0, 0)%Z /\
  network.baseline (fst no_record) = (1, 0)%Z /\
  snd no_record = (1, 0)%Z /\
  snd no_record <> (0 + 0, 0 + 0)%Z /\
  network.carry (fst with_record) = (2, 2)%Z /\
  network.baseline (fst with_record) = (1, 1)%Z /\
  snd with_record = (3, 3)%Z /\
  snd with_record <> (2 + 0, 2 + 0)%Z.
Proof. vm_compute. repeat split; discriminate. Qed.

(** C3 (amended).  In a poll of an interface in which the raw value of
    either direction is strictly below its baseline, the baseline of both
    directions becomes the raw reading, the new carry is the cumulative
    value of the persisted record loaded this cycle, or 0 without one, and
    the value reported for the cycle is the new carry plus the raw
    reading. *)
Theorem reset_poll previous first tx rx :
  (tx < fst (network.baseline first) \/ rx < snd (network.baseline first))%Z ->
  let after := fst (network.poll previous (Some first) tx rx) in
  let report := snd (network.poll previous (Some first) tx rx) in
  network.baseline after = (tx, rx) /\
  network.carry after
    = match previous with
      | Some record =>
          (network.bytes_transmitted record, network.bytes_received record)
      | None => (0, 0)%Z
      end /\
  report = (fst (network.carry after) + tx, snd (network.carry after) + rx)%Z.
Proof.
  intros Hreset. unfold network.poll, network.reconcile. simpl in *.
  replace ((rx <? network.first_bytes_received first)%Z
           || (tx <? network.first_bytes_transmitted first)%Z) with true.
  - by destruct previous.
  - symmetry. apply orb_true_iff.
    destruct Hreset as [?%Z.ltb_lt|?%Z.ltb_lt]; auto.
Qed.

(** The amended statement for the readings (1, 0) against the baseline
    (2, 1). *)
Lemma reset_poll_witness :
  snd (network.poll None (Some (network.mkFirstNetStats 2 1 0 0)) 1 0)
  = (0 + 1, 0 + 0)%Z.
Proof.
  refine (proj2 (proj2
    (reset_poll None (network.mkFirstNetStats 2 1 0 0) 1 0 _))).
  left. simpl. lia.
Defined.

(** ** Periodic actions *)

Lemma nearest_elem actions a :
  timed_actions.nearest actions = Some a -> a ∈ actions.
Proof.
  revert a. induction actions as [|x actions IH]; intros a; simpl; [done|].
  destruct (timed_actions.nearest actions) as [m|].
  - destruct (Qle_bool _ _); intros [= <-].
    + apply elem_of_cons; by left.
    + apply elem_of_cons; right. by apply IH.
  - intros [= <-]. apply elem_of_cons; by left.
Qed.

Lemma nearest_none actions :
  timed_actions.nearest actions = None -> actions = [].
Proof.
  destruct actions as [|x actions]; simpl; [done|].
  destruct (timed_actions.nearest actions); [destruct (Qle_bool _ _)|]; done.
Qed.

(** No action is due before the one [nearest] selects. *)
Lemma nearest_le actions a :
  timed_actions.nearest actions = Some a ->
  forall b, b ∈ actions ->
    (timed_actions.remaining_time a <= timed_actions.remaining_time b)%Q.
Proof.
  revert a. induction actions as [|x actions IH]; intros a; simpl; [done|].
  destruct (timed_actions.nearest actions) as [m|] eqn:Hm.
  - destruct (Qle_bool (timed_actions.remaining_time x)
                (timed_actions.remaining_time m)) eqn:Hle.
    + intros [= <-] b [->|Hb]%elem_of_cons; [apply Qle_refl|].
      apply Qle_bool_iff in Hle. eapply Qle_trans; [exact Hle|]. by apply IH.
    + intros [= <-] b [->|Hb]%elem_of_cons; [|by apply IH].
      apply Qnot_lt_le. intros Hlt. apply Qlt_le_weak, Qle_bool_iff in Hlt.
      congruence.
  - intros [= <-] b [->|Hb]%elem_of_cons; [apply Qle_refl|].
    apply nearest_none in Hm. subst. by apply elem_of_nil in Hb.
Qed.

(** An action that is due later than the nearest of the others is not
    selected. *)
Lemma nearest_later x actions m :
  timed_actions.nearest actions = Some m ->
  Qle_bool (timed_actions.remaining_time x) (timed_actions.remaining_time m)
    = false ->
  timed_actions.nearest (x :: actions) = Some m.
Proof. intros Hm Hle. simpl. by rewrite Hm, Hle. Qed.

(** What one call of [next] does, on any handler. *)
Lemma next_spec now self self' a :
  timed_actions.next now self = (self', Some a) ->
  let elapsed := (now - timed_actions._last_time self)%Q in
  let due := map (timed_actions.tick elapsed) (timed_actions._actions self) in
  a ∈ due /\
  (forall b, b ∈ due ->
     (timed_actions.remaining_time a <= timed_actions.remaining_time b)%Q) /\
  timed_actions._last_time self' = now /\
  timed_actions._actions self'
    = map (fun b =>
             if bool_decide (timed_actions.name b = timed_actions.name a)
             then timed_actions.reset b else b) due /\
  (forall b, b ∈ timed_actions._actions self' ->
     timed_actions.name b = timed_actions.name a ->
     timed_actions.remaining_time b = inject_Z (timed_actions.period b)).
Proof.
  intros Hnext elapsed due. unfold timed_actions.next in Hnext.
  fold elapsed in Hnext. fold due in Hnext.
  destruct (timed_actions.nearest due) as [m|] eqn:Hm; [|done].
  injection Hnext as <- <-. simpl.
  split; [by apply nearest_elem|]. split; [by apply nearest_le|].
  split; [done|]. split; [done|].
  intros b (c & -> & Hc)%list_elem_of_fmap.
  destruct (bool_decide (timed_actions.name c = timed_actions.name m)) eqn:Hd;
    simpl; [done|].
  intros Hname. apply bool_decide_eq_false in Hd. done.
Qed.

(** C9.  At startup [main] registers heartbeat with a remaining time of its
    full period, telemetry with half its period and sync_resources with 0.
    With positive periods the first [next], whenever it is called, runs
    sync_resources.  Every call of [next], on any handler and at any clock
    reading, runs an action whose remaining time, once the clocks are
    advanced by the time elapsed, is the smallest of all, and leaves it due
    again in exactly one period, the other actions keeping their advanced
    clocks; the action run and the handler after the call are functions of
    the handler and of the clock reading. *)
Theorem main_runs_sync_resources_first
    (HEARTBEAT_INTERVAL REFRESH_INTERVAL : Z) (started now : Q) :
  (0 < HEARTBEAT_INTERVAL)%Z ->
  (0 < REFRESH_INTERVAL)%Z ->
  exists action_handler,
    agent.main_actions HEARTBEAT_INTERVAL REFRESH_INTERVAL started
      = Some action_handler /\
    timed_actions._actions action_handler
      = [timed_actions.mkTimedAction "heartbeat" HEARTBEAT_INTERVAL
           "send_heartbeat" (inject_Z HEARTBEAT_INTERVAL);
         timed_actions.mkTimedAction "telemetry" REFRESH_INTERVAL
           "send_telemetry" (inject_Z REFRESH_INTERVAL / 2);
         timed_actions.mkTimedAction "sync_resources" 30
           "resource_synchronization" 0] /\
    timed_actions.name <$> snd (timed_actions.next now action_handler)
      = Some "sync_resources" /\
    (forall at_time self self' a,
       timed_actions.next at_time self = (self', Some a) ->
       let due :=
         map (timed_actions.tick (at_time - timed_actions._last_time self))
           (timed_actions._actions self) in
       a ∈ due /\
       (forall b, b ∈ due ->
          (timed_actions.remaining_time a <= timed_actions.remaining_time b)%Q) /\
       timed_actions._actions self'
         = map (fun b =>
                  if bool_decide (timed_actions.name b = timed_actions.name a)
                  then timed_actions.reset b else b) due).
Proof.
  intros HH HR.
  exists (timed_actions.mkActionHandler
            [timed_actions.mkTimedAction "heartbeat" HEARTBEAT_INTERVAL
               "send_heartbeat" (inject_Z HEARTBEAT_INTERVAL);
             timed_actions.mkTimedAction "telemetry" REFRESH_INTERVAL
               "send_telemetry" (inject_Z REFRESH_INTERVAL / 2);
             timed_actions.mkTimedAction "sync_resources" 30
               "resource_synchronization" 0] started).
  split; [reflexivity|]. split; [reflexivity|]. split.
  - set (e := (now - started)%Q).
    set (heartbeat := timed_actions.mkTimedAction "heartbeat" HEARTBEAT_INTERVAL
                        "send_heartbeat" (inject_Z HEARTBEAT_INTERVAL)).
    set (telemetry := timed_actions.mkTimedAction "telemetry" REFRESH_INTERVAL
                        "send_telemetry" (inject_Z REFRESH_INTERVAL / 2)).
    set (sync := timed_actions.mkTimedAction "sync_resources" 30
                   "resource_synchronization" 0).
    assert (HHq : (0 < inject_Z HEARTBEAT_INTERVAL)%Q).
    { change 0%Q with (inject_Z 0). by rewrite <- Zlt_Qlt. }
    assert (HRq : (0 < inject_Z REFRESH_INTERVAL)%Q).
    { change 0%Q with (inject_Z 0). by rewrite <- Zlt_Qlt. }
    assert (Hn : timed_actions.nearest
                   [timed_actions.tick e heartbeat; timed_actions.tick e telemetry;
                    timed_actions.tick e sync]
                 = Some (timed_actions.tick e sync)).
    { apply nearest_later; [apply nearest_later; [done|]|].
      - apply not_true_is_false. intros Hle%Qle_bool_iff. cbn in Hle.
        unfold Qdiv in Hle. change (/ 2)%Q with (1 # 2)%Q in Hle. lra.
      - apply not_true_is_false. intros Hle%Qle_bool_iff. cbn in Hle. lra. }
    unfold timed_actions.next.
    cbn [timed_actions._actions timed_actions._last_time map].
    fold e. by rewrite Hn.
  - intros at_time self self' a Hnext due.
    destruct (next_spec _ _ _ _ Hnext) as (Hin & Hle & _ & Hacts & _).
    done.
Qed.

(** The statement of C9 with the periods of the end-to-end scenario,
    heartbeat 20 and telemetry 60: the first call runs sync_resources. *)
Lemma main_runs_sync_resources_first_witness :
  exists action_handler,
    agent.main_actions 20 60 0 = Some action_handler /\
    timed_actions.name <$> snd (timed_actions.next 0 action_handler)
      = Some "sync_resources".
Proof.
  destruct (main_runs_sync_resources_first 20 60 0 0)
    as (action_handler & Hmain & _ & Hfirst & _); [lia|lia|].
  exists action_handler. by split.
Defined.

(** The end-to-end scenario under the virtual clock: heartbeat every 20,
    telemetry every 60 after a first delay of 30, sync_resources every 30
    from the start; of two actions due at the same time the one registered
    first runs first. *)
Lemma main_loop_scenario :
  agent.main_loop 8 0 <$> agent.main_actions 20 60 0
  = Some ["sync_resources"; "heartbeat"; "telemetry"; "sync_resources";
          "heartbeat"; "heartbeat"; "sync_resources"; "heartbeat"].
Proof. vm_compute. reflexivity. Qed.

(** * Further properties of the code *)

(** ** The excluded monitors of [Telemetry.__init__] *)

Lemma append_empty_r (s : string) : s +:+ "" = s.
Proof.
  induction s as [|c s IH]; [reflexivity|].
  change (String c s +:+ "") with (String c (s +:+ "")). by rewrite IH.
Qed.

Lemma contains_char_app c s1 s2 :
  telemetry.contains_char c (s1 +:+ s2)
  = telemetry.contains_char c s1 || telemetry.contains_char c s2.
Proof.
  induction s1 as [|c' s1 IH]; simpl; [done|].
  by rewrite IH, orb_assoc.
Qed.

Lemma remove_char_app c s1 s2 :
  telemetry.remove_char c (s1 +:+ s2)
  = telemetry.remove_char c s1 +:+ telemetry.remove_char c s2.
Proof.
  induction s1 as [|c' s1 IH]; simpl; [done|].
  destruct (Ascii.eqb c' c); simpl; by rewrite IH.
Qed.

Lemma remove_char_absent c s :
  telemetry.contains_char c s = false -> telemetry.remove_char c s = s.
Proof.
  induction s as [|c' s IH]; simpl; [done|].
  intros [-> Hs]%orb_false_iff. by rewrite IH.
Qed.

Lemma split_on_absent sep s :
  telemetry.contains_char sep s = false -> telemetry.split_on sep s = [s].
Proof.
  induction s as [|c s IH]; simpl; [done|].
  intros [-> Hs]%orb_false_iff. by rewrite IH.
Qed.

Lemma split_on_app sep s1 s2 :
  telemetry.contains_char sep s1 = false ->
  telemetry.split_on sep (s1 +:+ String sep s2) = s1 :: telemetry.split_on sep s2.
Proof.
  induction s1 as [|c s1 IH]; simpl.
  - intros _. by rewrite Ascii.eqb_refl.
  - intros [-> Hs]%orb_false_iff. by rewrite IH.
Qed.

(** Splitting undoes joining, for pieces without the separator. *)
Lemma split_on_concat sep (names : list string) :
  names <> [] ->
  Forall (fun n => telemetry.contains_char sep n = false) names ->
  telemetry.split_on sep (String.concat (String sep EmptyString) names) = names.
Proof.
  induction names as [|n names IH]; [done|]. intros _ Hall.
  apply Forall_cons in Hall as [Hn Hall].
  destruct names as [|n' names].
  - simpl. by apply split_on_absent.
  - change (String.concat (String sep "") (n :: n' :: names))
      with (n +:+ String sep (String.concat (String sep "") (n' :: names))).
    rewrite split_on_app by done. f_equal. by apply IH.
Qed.

Lemma remove_char_concat c sep (pieces : list string) :
  telemetry.contains_char c sep = false ->
  telemetry.remove_char c (String.concat sep pieces)
  = String.concat sep (map (telemetry.remove_char c) pieces).
Proof.
  intros Hsep. induction pieces as [|p pieces IH]; [done|].
  destruct pieces as [|p' pieces]; [done|].
  change (String.concat sep (p :: p' :: pieces))
    with (p +:+ sep +:+ String.concat sep (p' :: pieces)).
  rewrite !remove_char_app, IH, (remove_char_absent c sep) by done.
  done.
Qed.

Lemma concat_empty sep (names : list string) :
  Forall (fun n => n <> "") names ->
  String.concat sep names = "" -> names = [].
Proof.
  destruct names as [|n names]; [done|].
  intros [Hn _]%Forall_cons. destruct names as [|n' names]; simpl.
  - done.
  - destruct n; [done|discriminate].
Qed.

(** The name of a monitor module, [base_suffix] with no underscore in the
    suffix: the text before the last underscore is [base]. *)
Lemma rsplit_head_app sep base suffix :
  telemetry.contains_char sep suffix = false ->
  telemetry.rsplit_head sep (base +:+ String sep suffix) = base.
Proof.
  intros Hsuffix. induction base as [|c base IH]; simpl.
  - by rewrite Hsuffix, Ascii.eqb_refl.
  - rewrite contains_char_app. simpl. rewrite Ascii.eqb_refl, orb_true_r.
    by rewrite IH.
Qed.

(** X1.  The list that [__init__] keeps in [self.excluded_monitors] holds
    the names that were joined with commas into the argument
    [excluded_monitors], in their order, whether each name was written
    between single quotes or bare: for names that are not empty and hold
    neither a comma nor a single quote.  For no name at all the argument is
    the empty string and the list is empty. *)
Theorem parse_excluded_monitors_join (names : list string) (quoted : bool) :
  Forall (fun n => n <> "" /\ telemetry.contains_char ","%char n = false
                   /\ telemetry.contains_char "'"%char n = false) names ->
  let quote n := if quoted then "'" +:+ n +:+ "'" else n in
  telemetry.parse_excluded_monitors (Some (String.concat "," (map quote names)))
  = names.
Proof.
  intros Hall quote. unfold telemetry.parse_excluded_monitors.
  destruct (String.eqb_spec (String.concat "," (map quote names)) "") as [Hempty|Hne].
  - apply concat_empty in Hempty.
    + by destruct names.
    + apply Forall_fmap. eapply Forall_impl; [exact Hall|].
      intros n (Hn & _). unfold quote. destruct quoted; simpl; [discriminate|exact Hn].
  - destruct names as [|n0 names0] eqn:En; [done|]. rewrite <- En in *.
    rewrite remove_char_concat by done.
    rewrite map_map.
    assert (Hq : map (fun n => telemetry.remove_char "'" (quote n)) names = names).
    { rewrite <- (map_id names) at 2. apply map_ext_Forall.
      eapply Forall_impl; [exact Hall|]. intros n (_ & _ & Hn).
      unfold quote. destruct quoted; [|by apply remove_char_absent].
      rewrite !remove_char_app. simpl. rewrite (remove_char_absent _ n) by done.
      rewrite append_empty_r. reflexivity. }
    rewrite Hq. apply split_on_concat; [by rewrite En|].
    eapply Forall_impl; [exact Hall|]. by intros n (_ & ? & _).
Qed.

Lemma parse_excluded_monitors_join_witness :
  telemetry.parse_excluded_monitors (Some "'network','gpio'")
  = ["network"; "gpio"].
Proof.
  apply (parse_excluded_monitors_join ["network"; "gpio"] true).
  repeat constructor; discriminate.
Defined.

(** ** [_check_monitors_health]: what a pass keeps *)

Lemma dict_get_in_keys {V} (d : list (string * V)) k :
  k ∈ telemetry.keys d -> exists v, telemetry.dict_get d k = Some v.
Proof.
  unfold telemetry.keys. induction d as [|[k0 v0] d IH]; simpl.
  - by intros ?%elem_of_nil.
  - intros Hin. destruct (decide (k0 = k)) as [->|Hne]; [by eexists|].
    apply IH. apply elem_of_cons in Hin as [?|?]; [congruence|done].
Qed.

Lemma dict_set_new_keys {V} (d : list (string * V)) k v :
  k ∉ telemetry.keys d ->
  telemetry.keys (telemetry.dict_set d k v) = telemetry.keys d ++ [k].
Proof.
  unfold telemetry.keys. induction d as [|[k0 v0] d IH]; simpl; [done|].
  intros [Hne Hnotin]%not_elem_of_cons.
  rewrite decide_False by done. simpl. f_equal. by apply IH.
Qed.

Section HealthPass.
Import telemetry.

Variable get_monitor : string -> string -> Telemetry -> bool -> Monitor.
Variable run_update_data : string -> Monitor -> Monitor.

Lemma check_monitors_health_keys self :
  keys (monitor_list (_check_monitors_health get_monitor run_update_data self))
  = keys (monitor_list self).
Proof.
  apply check_monitors_keys. intros [k v] Hin. simpl.
  unfold keys. apply list_elem_of_fmap. by exists (k, v).
Qed.

(** X2.  A health check neither adds nor removes nor reorders a name of the
    registry, whatever the monitors' state: dead threads are replaced under
    their own name. *)
Theorem check_monitors_health_keeps_names self :
  keys (monitor_list (_check_monitors_health get_monitor run_update_data self))
  = keys (monitor_list self).
Proof.
  unfold _check_monitors_health. apply check_monitors_keys.
  intros [monitor_name it_monitor] Hin. simpl.
  unfold keys. apply list_elem_of_fmap. by exists (monitor_name, it_monitor).
Qed.

(** The entry of the visited item after the whole pass is the one its own
    pass of the loop wrote. *)
Lemma check_monitors_visit pre post self monitor_name it_monitor :
  monitor_name ∉ keys post ->
  dict_get
    (monitor_list
       (fold_left (check_monitor get_monitor run_update_data)
          (pre ++ (monitor_name, it_monitor) :: post) self))
    monitor_name
  = dict_get
      (monitor_list
         (check_monitor get_monitor run_update_data
            (fold_left (check_monitor get_monitor run_update_data) pre self)
            (monitor_name, it_monitor)))
      monitor_name.
Proof.
  intros Hpost. rewrite fold_left_app. simpl.
  by rewrite check_monitors_other.
Qed.

(** In a registry that holds each name once, the entry of a name after the
    health check is the one written by the pass that visits the name, and
    that pass finds the instance the registry held when the check began. *)
Lemma check_monitors_health_visit self monitor_name it_monitor :
  NoDup (keys (monitor_list self)) ->
  dict_get (monitor_list self) monitor_name = Some it_monitor ->
  exists before,
    dict_get (monitor_list before) monitor_name = Some it_monitor /\
    dict_get
      (monitor_list (_check_monitors_health get_monitor run_update_data self))
      monitor_name
    = dict_get
        (monitor_list
           (check_monitor get_monitor run_update_data before
              (monitor_name, it_monitor)))
        monitor_name.
Proof.
  intros Hnodup Hget.
  destruct (dict_get_split _ _ _ Hget) as (pre & post & Hsplit & Hpre).
  assert (Hpost : monitor_name ∉ keys post).
  { unfold keys in *. rewrite Hsplit, map_app in Hnodup. simpl in Hnodup.
    apply NoDup_app in Hnodup as (_ & _ & Hnodup).
    by apply NoDup_cons in Hnodup as [? _]. }
  exists (fold_left (check_monitor get_monitor run_update_data) pre self).
  split; [by rewrite check_monitors_other|].
  unfold _check_monitors_health. rewrite Hsplit at 1.
  by apply check_monitors_visit.
Qed.

(** X3.  In a registry that holds each name once, a health check leaves the
    entry of a threaded monitor whose thread is alive as it is, and replaces
    the entry of a monitor that is not threaded by the result of one
    [run_update_data(monitor_name=...)] on the instance found. *)
Theorem check_monitors_health_keeps_alive self monitor_name it_monitor :
  NoDup (keys (monitor_list self)) ->
  dict_get (monitor_list self) monitor_name = Some it_monitor ->
  let self' := _check_monitors_health get_monitor run_update_data self in
  (is_thread it_monitor = true -> is_alive it_monitor = true ->
   dict_get (monitor_list self') monitor_name = Some it_monitor) /\
  (is_thread it_monitor = false ->
   dict_get (monitor_list self') monitor_name
   = Some (run_update_data monitor_name it_monitor)).
Proof.
  intros Hnodup Hget self'.
  destruct (check_monitors_health_visit self monitor_name it_monitor Hnodup Hget)
    as (before & Hbefore & Hvisit).
  subst self'. rewrite Hvisit. simpl. split.
  - intros -> Halive. unfold is_thread_creation_needed. by rewrite Halive.
  - intros ->. simpl. apply dict_get_set_eq.
Qed.

(** A pass over a monitor that is inline or alive does not depend on the
    constructor of monitors and gives the logger no record of level info. *)
Lemma check_monitor_no_construction get_monitor' self item :
  (is_thread (snd item) = true -> is_alive (snd item) = true) ->
  check_monitor get_monitor run_update_data self item
  = check_monitor get_monitor' run_update_data self item /\
  log (check_monitor get_monitor run_update_data self item) = log self.
Proof.
  destruct item as [n m]; simpl. intros Halive.
  destruct (is_thread m); [|done].
  unfold is_thread_creation_needed. by rewrite Halive.
Qed.

Lemma check_monitors_no_construction get_monitor' items self :
  Forall (fun item => is_thread (snd item) = true -> is_alive (snd item) = true)
    items ->
  fold_left (check_monitor get_monitor run_update_data) items self
  = fold_left (check_monitor get_monitor' run_update_data) items self /\
  log (fold_left (check_monitor get_monitor run_update_data) items self) = log self.
Proof.
  intros Hall. revert self.
  induction Hall as [|item items Hitem Hall IH]; intros self; simpl; [done|].
  destruct (check_monitor_no_construction get_monitor' self item Hitem) as [Heq Hlog].
  destruct (IH (check_monitor get_monitor run_update_data self item)) as [IH1 IH2].
  rewrite IH2, Hlog, IH1, Heq. done.
Qed.

End HealthPass.

Lemma check_monitors_health_keeps_alive_witness :
  let self' :=
    telemetry._check_monitors_health examples.fresh_monitor examples.idle_update
      examples.telemetry_live in
  (telemetry.is_thread examples.live_monitor = true ->
   telemetry.is_alive examples.live_monitor = true ->
   telemetry.dict_get (telemetry.monitor_list self') "network"
   = Some examples.live_monitor) /\
  (telemetry.is_thread examples.live_monitor = false ->
   telemetry.dict_get (telemetry.monitor_list self') "network"
   = Some (examples.idle_update "network" examples.live_monitor)).
Proof.
  apply (check_monitors_health_keeps_alive examples.fresh_monitor
           examples.idle_update examples.telemetry_live "network"
           examples.live_monitor).
  - simpl. solve_NoDup.
  - reflexivity.
Defined.

(** X4.  When every threaded monitor of the registry is alive, a health
    check constructs no monitor: its result is the same for any two
    constructors, and it gives the logger no record of level info or
    above. *)
Theorem check_monitors_health_no_construction
    (get_monitor get_monitor' :
       string -> string -> telemetry.Telemetry -> bool -> telemetry.Monitor)
    (run_update_data : string -> telemetry.Monitor -> telemetry.Monitor)
    (self : telemetry.Telemetry) :
  Forall (fun item => telemetry.is_thread (snd item) = true ->
                      telemetry.is_alive (snd item) = true)
    (telemetry.monitor_list self) ->
  telemetry._check_monitors_health get_monitor run_update_data self
  = telemetry._check_monitors_health get_monitor' run_update_data self /\
  telemetry.log (telemetry._check_monitors_health get_monitor run_update_data self)
  = telemetry.log self.
Proof.
  intros Hall. unfold telemetry._check_monitors_health.
  by apply check_monitors_no_construction.
Qed.

Lemma check_monitors_health_no_construction_witness :
  telemetry._check_monitors_health examples.fresh_monitor examples.idle_update
    examples.telemetry_live
  = telemetry._check_monitors_health examples.inline_monitor examples.idle_update
      examples.telemetry_live /\
  telemetry.log
    (telemetry._check_monitors_health examples.fresh_monitor examples.idle_update
       examples.telemetry_live)
  = telemetry.log examples.telemetry_live.
Proof.
  apply (check_monitors_health_no_construction examples.fresh_monitor
           examples.inline_monitor examples.idle_update examples.telemetry_live).
  repeat constructor; simpl; done.
Defined.

(** ** [_initialize_monitors] *)

Section Initialisation.
Import telemetry.

Variable get_monitor : string -> string -> Telemetry -> bool -> Monitor.
Variable run_update_data : string -> Monitor -> Monitor.

Lemma initialize_monitor_ok excluded visited self mon :
  registry_ok get_monitor excluded visited (monitor_list self) ->
  registry_ok get_monitor excluded (visited ++ [mon])
    (monitor_list (initialize_monitor get_monitor excluded self mon)).
Proof.
  intros (Hnodup & Hsub & Hentries). unfold initialize_monitor.
  assert (Hsub' : sublist (keys (monitor_list self)) (visited ++ [mon])).
  { by apply sublist_inserts_r. }
  destruct (bool_decide_reflect (rsplit_head "_"%char mon ∈ excluded)) as [Hex|Hex];
    [done|].
  destruct (enabled_monitor (get_monitor mon mon self true)) eqn:Hen; [|done].
  simpl. split; [|split].
  - destruct (decide (mon ∈ keys (monitor_list self))) as [Hold|Hnew].
    + by rewrite dict_set_keys.
    + rewrite dict_set_new_keys by done.
      apply NoDup_app. split; [done|]. split; [|apply NoDup_singleton].
      intros k Hk ->%list_elem_of_singleton. done.
  - destruct (decide (mon ∈ keys (monitor_list self))) as [Hold|Hnew].
    + by rewrite dict_set_keys.
    + rewrite dict_set_new_keys by done. by apply sublist_app.
  - intros k m. destruct (decide (mon = k)) as [<-|Hne].
    + rewrite dict_get_set_eq. intros [= <-].
      split; [done|]. split; [done|]. by eexists.
    + rewrite dict_get_set_ne by done. apply Hentries.
Qed.

Lemma initialize_monitors_ok excluded visited active_monitors self :
  registry_ok get_monitor excluded visited (monitor_list self) ->
  registry_ok get_monitor excluded (visited ++ active_monitors)
    (monitor_list
       (fold_left (initialize_monitor get_monitor excluded) active_monitors self)).
Proof.
  revert visited self.
  induction active_monitors as [|mon active_monitors IH]; intros visited self Hok;
    simpl.
  - by rewrite app_nil_r.
  - replace (visited ++ mon :: active_monitors)
      with ((visited ++ [mon]) ++ active_monitors) by by rewrite <- app_assoc.
    apply IH. by apply initialize_monitor_ok.
Qed.

(** The registry when the loop of [_initialize_monitors] ends, from the
    empty registry that [__init__] sets. *)
Lemma initialize_monitors_loop active_monitors excluded self :
  monitor_list self = [] ->
  registry_ok get_monitor excluded active_monitors
    (monitor_list
       (fold_left (initialize_monitor get_monitor excluded) active_monitors self)).
Proof.
  intros Hempty.
  apply (initialize_monitors_ok excluded [] active_monitors).
  rewrite Hempty. split; [apply NoDup_nil_2|]. split; [done|]. done.
Qed.

(** X5.  From the empty registry that [__init__] sets, [_initialize_monitors]
    registers each name at most once and in the order of [active_monitors];
    every registered name is one whose text before the last underscore is
    not in the excluded list and for which the constructor built an enabled
    monitor. *)
Theorem initialize_monitors_registers active_monitors excluded self :
  monitor_list self = [] ->
  let self' :=
    _initialize_monitors get_monitor run_update_data active_monitors excluded self in
  NoDup (keys (monitor_list self')) /\
  sublist (keys (monitor_list self')) active_monitors /\
  forall mon,
    mon ∈ keys (monitor_list self') ->
    (rsplit_head "_"%char mon ∉ excluded) /\
    exists during, enabled_monitor (get_monitor mon mon during true) = true.
Proof.
  intros Hempty self'.
  destruct (initialize_monitors_loop active_monitors excluded self Hempty)
    as (Hnodup & Hsub & Hentries).
  subst self'. unfold _initialize_monitors.
  rewrite check_monitors_health_keys.
  split; [done|]. split; [done|].
  intros mon (monitor & Hget)%dict_get_in_keys.
  destruct (Hentries _ _ Hget) as (Hex & Hen & during & ->).
  split; [done|]. by exists during.
Qed.

(** X6.  A monitor module named [base_suffix], the suffix without
    underscore, is never registered when [base] is in the excluded list,
    wherever it stands in [active_monitors] and whatever its constructor
    would build. *)
Theorem initialize_monitors_skips_excluded active_monitors excluded self
    base suffix :
  monitor_list self = [] ->
  base ∈ excluded ->
  contains_char "_"%char suffix = false ->
  base +:+ "_" +:+ suffix
    ∉ keys (monitor_list
              (_initialize_monitors get_monitor run_update_data
                 active_monitors excluded self)).
Proof.
  intros Hempty Hbase Hsuffix.
  destruct (initialize_monitors_loop active_monitors excluded self Hempty)
    as (_ & _ & Hentries).
  unfold _initialize_monitors. rewrite check_monitors_health_keys.
  intros (monitor & Hget)%dict_get_in_keys.
  destruct (Hentries _ _ Hget) as (Hex & _).
  apply Hex. change (base +:+ "_" +:+ suffix) with (base +:+ String "_" suffix).
  by rewrite rsplit_head_app.
Qed.

(** X7.  When a monitor that has just been constructed is not alive (its
    thread is started by [start()] only), every threaded monitor is
    constructed twice by [_initialize_monitors]: the instance that the loop
    registered is found not alive by the health check that ends the method
    and is replaced by a second instance, which is the one started; the
    second constructor call sees the first instance in the registry.  An
    inline monitor is constructed once and updated once. *)
Theorem initialize_monitors_constructs_twice active_monitors excluded self :
  monitor_list self = [] ->
  (forall monitor_name during,
     is_alive (get_monitor monitor_name monitor_name during true) = false) ->
  let self' :=
    _initialize_monitors get_monitor run_update_data active_monitors excluded self in
  forall mon registered,
    dict_get (monitor_list self') mon = Some registered ->
    exists first,
      let monitor := get_monitor mon mon first true in
      enabled_monitor monitor = true /\
      if is_thread monitor then
        exists during,
          dict_get (monitor_list during) mon = Some monitor /\
          registered = start (get_monitor mon mon during true)
      else registered = run_update_data mon monitor.
Proof.
  intros Hempty Hnew self' mon registered Hreg.
  destruct (initialize_monitors_loop active_monitors excluded self Hempty)
    as (Hnodup & Hsub & Hentries).
  subst self'. unfold _initialize_monitors in Hreg.
  set (loop := fold_left (initialize_monitor get_monitor excluded) active_monitors self)
    in *.
  assert (Hin : mon ∈ keys (monitor_list loop)).
  { rewrite <- (check_monitors_health_keys get_monitor run_update_data).
    by eapply dict_get_keys. }
  apply dict_get_in_keys in Hin as (monitor & Hget).
  destruct (Hentries _ _ Hget) as (_ & Hen & first & Hmonitor).
  exists first. cbv zeta. rewrite <- Hmonitor. split; [done|].
  destruct (is_thread monitor) eqn:Hthread.
  - destruct (dict_get_split _ _ _ Hget) as (pre & post & Hsplit & Hpre).
    assert (Hpost : mon ∉ keys post).
    { unfold keys in *. rewrite Hsplit, map_app in Hnodup. simpl in Hnodup.
      apply NoDup_app in Hnodup as (_ & _ & Hnodup).
      by apply NoDup_cons in Hnodup as [? _]. }
    assert (Halive : is_alive monitor = false) by (rewrite Hmonitor; apply Hnew).
    pose proof (check_monitors_recreates get_monitor run_update_data
                  pre post loop mon monitor Hpost Hthread Halive) as Hrec.
    cbv zeta in Hrec. rewrite <- Hsplit in Hrec.
    unfold _check_monitors_health in Hreg. rewrite Hrec in Hreg.
    injection Hreg as <-. eexists. split; [|reflexivity].
    simpl. by rewrite check_monitors_other.
  - destruct (check_monitors_health_visit get_monitor run_update_data
                loop mon monitor Hnodup Hget) as (before & _ & Hvisit).
    rewrite Hvisit in Hreg. simpl in Hreg. rewrite Hthread in Hreg.
    simpl in Hreg. rewrite dict_get_set_eq in Hreg. by injection Hreg as <-.
Qed.

End Initialisation.

Lemma initialize_monitors_registers_witness :
  let self' :=
    telemetry._initialize_monitors examples.fresh_monitor examples.idle_update
      ["network_monitor"; "gpio_monitor"; "temperature_monitor"] ["gpio"]
      (examples.telemetry_with 10 []) in
  NoDup (telemetry.keys (telemetry.monitor_list self')) /\
  sublist (telemetry.keys (telemetry.monitor_list self'))
    ["network_monitor"; "gpio_monitor"; "temperature_monitor"] /\
  forall mon,
    mon ∈ telemetry.keys (telemetry.monitor_list self') ->
    (telemetry.rsplit_head "_"%char mon ∉ ["gpio"]) /\
    exists during,
      telemetry.enabled_monitor (examples.fresh_monitor mon mon during true) = true.
Proof.
  apply (initialize_monitors_registers examples.fresh_monitor examples.idle_update
           ["network_monitor"; "gpio_monitor"; "temperature_monitor"] ["gpio"]
           (examples.telemetry_with 10 [])).
  reflexivity.
Defined.

Lemma initialize_monitors_skips_excluded_witness :
  "gpio_monitor"
    ∉ telemetry.keys
        (telemetry.monitor_list
           (telemetry._initialize_monitors examples.fresh_monitor
              examples.idle_update
              ["network_monitor"; "gpio_monitor"; "temperature_monitor"] ["gpio"]
              (examples.telemetry_with 10 []))).
Proof.
  apply (initialize_monitors_skips_excluded examples.fresh_monitor
           examples.idle_update
           ["network_monitor"; "gpio_monitor"; "temperature_monitor"] ["gpio"]
           (examples.telemetry_with 10 []) "gpio" "monitor").
  - reflexivity.
  - apply elem_of_cons. by left.
  - reflexivity.
Defined.

Lemma initialize_monitors_constructs_twice_witness :
  exists first,
    let monitor :=
      examples.fresh_monitor "network_monitor" "network_monitor" first true in
    telemetry.enabled_monitor monitor = true /\
    if telemetry.is_thread monitor then
      exists during,
        telemetry.dict_get (telemetry.monitor_list during) "network_monitor"
        = Some monitor /\
        telemetry.start
          (examples.fresh_monitor "network_monitor" "network_monitor"
             (examples.telemetry_with 10 []) true)
        = telemetry.start
            (examples.fresh_monitor "network_monitor" "network_monitor" during true)
    else
      telemetry.start
        (examples.fresh_monitor "network_monitor" "network_monitor"
           (examples.telemetry_with 10 []) true)
      = examples.idle_update "network_monitor" monitor.
Proof.
  apply (initialize_monitors_constructs_twice examples.fresh_monitor
           examples.idle_update
           ["network_monitor"; "gpio_monitor"; "temperature_monitor"] ["gpio"]
           (examples.telemetry_with 10 [])
           eq_refl (fun _ _ => eq_refl) "network_monitor").
  reflexivity.
Defined.

(** ** [_collect_monitor_metrics]: monitors that write the same field *)

Lemma collect_monitors_writes monitors contributions temp_dict records :
  Forall2 (fun m c => telemetry.updated m = true /\ telemetry.writes m c)
    monitors contributions ->
  telemetry.collect_monitors monitors (temp_dict, records)
  = (fold_left (fun acc c => c ∪ acc) contributions temp_dict, records).
Proof.
  intros Hall. revert temp_dict.
  induction Hall as [|m c monitors contributions [Hup Hw] Hall IH];
    intros temp_dict; simpl; [done|].
  unfold telemetry.collect_monitors in *. simpl.
  rewrite Hup, (Hw temp_dict). apply IH.
Qed.

Lemma fold_union_absent (contributions : list (gmap string py.PyVal)) temp_dict k :
  Forall (fun c => c !! k = None) contributions ->
  fold_left (fun acc c => c ∪ acc) contributions temp_dict !! k = temp_dict !! k.
Proof.
  intros Hall. revert temp_dict.
  induction Hall as [|c contributions Hc Hall IH]; intros temp_dict; simpl; [done|].
  rewrite IH. rewrite lookup_union_r; done.
Qed.

(** X8.  When every monitor has updated data and reports by a dictionary
    update of the mapping it is given, the pass logs nothing and the
    collected mapping holds, for each field, the value written by the last
    monitor of the registry that writes the field; a field that no monitor
    writes keeps the value the mapping started with. *)
Theorem collect_monitor_metrics_last_writer monitors contributions temp_dict records :
  Forall2 (fun m c => telemetry.updated m = true /\ telemetry.writes m c)
    monitors contributions ->
  let collected := telemetry.collect_monitors monitors (temp_dict, records) in
  snd collected = records /\
  (forall k, Forall (fun c => c !! k = None) contributions ->
             fst collected !! k = temp_dict !! k) /\
  (forall k v pre c post,
     contributions = pre ++ c :: post ->
     c !! k = Some v ->
     Forall (fun c' => c' !! k = None) post ->
     fst collected !! k = Some v).
Proof.
  intros Hall collected. subst collected.
  rewrite (collect_monitors_writes _ _ _ _ Hall). simpl.
  split; [done|]. split.
  - intros k Hk. by apply fold_union_absent.
  - intros k v pre c post -> Hc Hpost.
    rewrite fold_left_app. simpl. rewrite fold_union_absent by done.
    by apply lookup_union_Some_l.
Qed.

Lemma collect_monitor_metrics_last_writer_witness :
  let contributions : list (gmap string py.PyVal) :=
    [ {[ "hostname" := py.VStr "edge" ]};
      {[ "operating_system" := py.VStr "Linux" ]};
      {[ "hostname" := py.VStr "edge" ]} ] in
  let collected :=
    telemetry.collect_monitors
      [examples.host_monitor; examples.os_monitor; examples.host_monitor] (∅, []) in
  snd collected = [] /\
  (forall k, Forall (fun c => c !! k = None) contributions ->
             fst collected !! k = (∅ : gmap string py.PyVal) !! k) /\
  (forall k v pre c post,
     contributions = pre ++ c :: post ->
     c !! k = Some v ->
     Forall (fun c' => c' !! k = None) post ->
     fst collected !! k = Some v).
Proof.
  apply (collect_monitor_metrics_last_writer
           [examples.host_monitor; examples.os_monitor; examples.host_monitor]
           [ {[ "hostname" := py.VStr "edge" ]};
             {[ "operating_system" := py.VStr "Linux" ]};
             {[ "hostname" := py.VStr "edge" ]} ] ∅ []).
  repeat constructor; intros temp_dict; simpl;
    by rewrite insert_union_singleton_l.
Defined.

(** ** [run]: what a cycle keeps and what it delivers *)

Lemma write_to_agent_queue_raises others self self' e :
  telemetry.write_to_agent_queue others self = (self', py.Raised e) ->
  e = py.Full \/ e = py.Empty.
Proof.
  unfold telemetry.write_to_agent_queue, queue.put, queue.get.
  destruct (queue.full (telemetry.report_channel self)); [|discriminate].
  destruct (queue.items _) as [|x rest]; [intros [= _ <-]; by right|].
  simpl. destruct (queue.full _); [|discriminate]. intros [= _ <-]; by left.
Qed.

Lemma write_to_agent_queue_monitors others self :
  telemetry.monitor_list (fst (telemetry.write_to_agent_queue others self))
  = telemetry.monitor_list self.
Proof.
  unfold telemetry.write_to_agent_queue.
  destruct (queue.put _ _); [|done].
  destruct (queue.get _) as [|[? ?]]; [done|].
  destruct (queue.put _ _); done.
Qed.

Section Cycle.
Import telemetry.

Variable get_monitor : string -> string -> Telemetry -> bool -> Monitor.
Variable run_update_data : string -> Monitor -> Monitor.
Variable model_validate : gmap string py.PyVal -> option TelemetryPayloadAttributes.
Variable update :
  TelemetryPayloadAttributes -> gmap string py.PyVal -> TelemetryPayloadAttributes.

(** X9.  [_sync_status_to_telemetry] leaves the payload as it is, without
    calling [update], when no attribute of the status is a model with a
    truthy entry: entries that are empty, 0 or False are filtered out, and a
    model left with no entry is skipped, as is an attribute that is no
    model. *)
Theorem sync_status_nothing_truthy self :
  Forall (fun item : string * EdgeValue =>
            match snd item with
            | Model dump => forall k v, dump !! k = Some v -> py.truthy v = false
            | Plain _ => True
            end)
    (edge_status self) ->
  _local_telemetry (_sync_status_to_telemetry update self) = _local_telemetry self.
Proof.
  unfold _sync_status_to_telemetry. simpl.
  generalize (_local_telemetry self) as payload.
  induction (edge_status self) as [|[attr value] rest IH]; intros payload Hall;
    simpl; [done|].
  apply Forall_cons in Hall as [Hitem Hall].
  rewrite IH by done. unfold sync_attribute. simpl in *.
  destruct value as [dump|v]; [|done].
  rewrite bool_decide_true; [done|].
  apply map_size_empty_iff, map_empty. intros k.
  apply map_lookup_filter_None. right. intros v Hkv. simpl.
  rewrite (Hitem k v Hkv). intros [].
Qed.

(** X10.  A run that ends with the validation error of
    [_collect_monitor_metrics] has delivered nothing: the report channel is
    as the run found it, and [_local_telemetry] still holds the payload of
    the cycle before, with its old [current_time]. *)
Theorem run_validation_error now others self self' :
  run get_monitor run_update_data model_validate update now others self
    = (self', py.Raised py.ValidationError) ->
  report_channel self' = report_channel self /\
  _local_telemetry self' = _local_telemetry self.
Proof.
  unfold run.
  destruct (_collect_monitor_metrics _ _) as [collected [|e]] eqn:Hc.
  - intros [?|?]%write_to_agent_queue_raises; discriminate.
  - intros [= <- ->]. unfold _collect_monitor_metrics in Hc.
    destruct (collect_monitors _ _) as [temp_dict records].
    destruct (model_validate temp_dict); [discriminate|].
    injection Hc as <-. simpl. unfold _check_monitors_health.
    apply (check_monitors_frame get_monitor run_update_data
             (monitor_list
                (logger (status_running now self)
                   (py.LogInfo "Collecting monitor metrics...")))
             (logger (status_running now self)
                (py.LogInfo "Collecting monitor metrics..."))).
Qed.

(** X11.  When the report channel is unbounded or holds fewer items than its
    bound, a run that gets past validation returns, whatever the other
    threads do meanwhile, and the channel then holds the items it held, in
    their order, followed by the payload of this cycle with its stamp:
    nothing is dropped. *)
Theorem run_room_appends now others self self' out :
  run get_monitor run_update_data model_validate update now others self
    = (self', out) ->
  out <> py.Raised py.ValidationError ->
  (queue.maxsize (report_channel self) <= 0 \/
   queue.qsize (report_channel self) < queue.maxsize (report_channel self))%Z ->
  out = py.Returned /\
  report_channel self'
  = queue.mkQueue (queue.maxsize (report_channel self))
      (queue.items (report_channel self) ++ [_local_telemetry self']) /\
  current_time (_local_telemetry self') = Some (current_time_stamp now).
Proof.
  intros Hrun Hout Hroom.
  destruct (run_reaches_delivery _ _ _ _ _ _ _ _ _ Hrun Hout)
    as (ready & Hchannel & Hstamp & Hwrite).
  assert (Hfull : queue.full (report_channel ready) = false).
  { rewrite Hchannel. unfold queue.full. apply andb_false_iff.
    destruct Hroom as [?|?]; [left; apply Z.ltb_ge|right; apply Z.leb_gt]; lia. }
  unfold write_to_agent_queue, queue.put in Hwrite. rewrite Hfull in Hwrite.
  injection Hwrite as <- <-. simpl. by rewrite Hchannel.
Qed.

(** X12.  A run, however it ends, leaves the registry with the names it
    had, in their order: a cycle never adds or drops a monitor. *)
Theorem run_keeps_monitor_names now others self :
  keys (monitor_list
          (fst (run get_monitor run_update_data model_validate update
                  now others self)))
  = keys (monitor_list self).
Proof.
  unfold run.
  set (checked := _check_monitors_health get_monitor run_update_data
                    (logger (status_running now self)
                       (py.LogInfo "Collecting monitor metrics..."))).
  assert (Hchecked : keys (monitor_list checked) = keys (monitor_list self)).
  { subst checked. by rewrite check_monitors_health_keys. }
  unfold _collect_monitor_metrics.
  destruct (collect_monitors _ _) as [temp_dict records].
  destruct (model_validate temp_dict) as [payload|]; simpl; [|done].
  by rewrite write_to_agent_queue_monitors.
Qed.

End Cycle.

Lemma sync_status_nothing_truthy_witness :
  telemetry._local_telemetry
    (telemetry._sync_status_to_telemetry examples.merge_fields
       examples.telemetry_idle_status)
  = telemetry._local_telemetry examples.telemetry_idle_status.
Proof.
  apply (sync_status_nothing_truthy examples.merge_fields
           examples.telemetry_idle_status).
  repeat constructor. simpl.
  intros k v [_ <-]%lookup_singleton_Some. reflexivity.
Defined.

Lemma run_validation_error_witness :
  let self' :=
    fst (telemetry.run examples.fresh_monitor examples.idle_update
           examples.forbid_extra examples.merge_fields examples.at_9_2
           telemetry.quiet examples.telemetry_odd) in
  telemetry.report_channel self' = telemetry.report_channel examples.telemetry_odd /\
  telemetry._local_telemetry self'
  = telemetry._local_telemetry examples.telemetry_odd.
Proof.
  assert (Hrun :
    telemetry.run examples.fresh_monitor examples.idle_update
      examples.forbid_extra examples.merge_fields examples.at_9_2
      telemetry.quiet examples.telemetry_odd
    = (fst (telemetry.run examples.fresh_monitor examples.idle_update
              examples.forbid_extra examples.merge_fields examples.at_9_2
              telemetry.quiet examples.telemetry_odd),
       py.Raised py.ValidationError))
    by (vm_compute; reflexivity).
  exact (run_validation_error _ _ _ _ _ _ _ _ Hrun).
Defined.

Lemma run_room_appends_witness :
  let self' :=
    fst (telemetry.run examples.fresh_monitor examples.idle_update
           examples.accept_all examples.merge_fields examples.at_9_2
           telemetry.quiet examples.telemetry_host) in
  py.Returned = py.Returned /\
  telemetry.report_channel self'
  = queue.mkQueue (queue.maxsize (telemetry.report_channel examples.telemetry_host))
      (queue.items (telemetry.report_channel examples.telemetry_host)
       ++ [telemetry._local_telemetry self']) /\
  telemetry.current_time (telemetry._local_telemetry self')
  = Some (telemetry.current_time_stamp examples.at_9_2).
Proof.
  assert (Hrun :
    telemetry.run examples.fresh_monitor examples.idle_update
      examples.accept_all examples.merge_fields examples.at_9_2
      telemetry.quiet examples.telemetry_host
    = (fst (telemetry.run examples.fresh_monitor examples.idle_update
              examples.accept_all examples.merge_fields examples.at_9_2
              telemetry.quiet examples.telemetry_host),
       py.Returned))
    by (vm_compute; reflexivity).
  apply (run_room_appends _ _ _ _ _ _ _ _ _ Hrun).
  - discriminate.
  - right. vm_compute. reflexivity.
Defined.

(** ** The report channel under any interleaving *)

Lemma other_thread_wf {A} (q : queue.Queue A) op :
  queue.wf q ->
  queue.wf (queue.other_thread q op) /\
  queue.maxsize (queue.other_thread q op) = queue.maxsize q.
Proof.
  intros Hwf. destruct op as [|item]; simpl.
  - destruct (queue.get q) as [e|[x q']] eqn:Hget; [done|].
    split; [by eapply queue_get_wf|].
    unfold queue.get in Hget. destruct (queue.items q); [discriminate|].
    by injection Hget as _ <-.
  - destruct (queue.put q item) as [e|q'] eqn:Hput; [done|].
    split; [by eapply queue_put_wf|].
    by apply queue_put_inv in Hput as [_ ->].
Qed.

Lemma interleave_wf {A} ops (q : queue.Queue A) :
  queue.wf q ->
  queue.wf (queue.interleave ops q) /\
  queue.maxsize (queue.interleave ops q) = queue.maxsize q.
Proof.
  unfold queue.interleave. revert q.
  induction ops as [|op ops IH]; intros q Hwf; simpl; [done|].
  destruct (other_thread_wf q op Hwf) as [Hwf' Hmax].
  destruct (IH _ Hwf') as [? ->]. done.
Qed.

(** X13.  The delivery step of [run] keeps the report channel within its
    bound whatever the other threads sharing the channel do between its
    calls, and whether it returns or raises; when it returns, the newest
    item of the channel is the payload of this cycle. *)
Theorem write_to_agent_queue_bounded others self :
  queue.wf (telemetry.report_channel self) ->
  let delivery := telemetry.write_to_agent_queue others self in
  queue.wf (telemetry.report_channel (fst delivery)) /\
  queue.maxsize (telemetry.report_channel (fst delivery))
  = queue.maxsize (telemetry.report_channel self) /\
  (snd delivery = py.Returned ->
   last (queue.items (telemetry.report_channel (fst delivery)))
   = Some (telemetry._local_telemetry self)).
Proof.
  intros Hwf delivery. subst delivery. unfold telemetry.write_to_agent_queue.
  destruct (queue.put (telemetry.report_channel self) _) as [e|q] eqn:Hput.
  - simpl.
    destruct (interleave_wf (telemetry.before_get others) _ Hwf) as [Hwf1 Hmax1].
    destruct (queue.get _) as [e'|[x q1]] eqn:Hget; simpl;
      [split; [exact Hwf1|split; [exact Hmax1|discriminate]]|].
    pose proof (queue_get_wf _ _ _ Hwf1 Hget) as Hwf2.
    assert (Hmax2 : queue.maxsize q1 = queue.maxsize (telemetry.report_channel self)).
    { rewrite <- Hmax1. unfold queue.get in Hget.
      destruct (queue.items _); [discriminate|]. by injection Hget as _ <-. }
    destruct (interleave_wf (telemetry.before_retry others) _ Hwf2) as [Hwf3 Hmax3].
    destruct (queue.put (queue.interleave (telemetry.before_retry others) q1) _)
      as [e'|q2] eqn:Hput2; simpl.
    + split; [done|]. split; [congruence|discriminate].
    + split; [by eapply queue_put_wf|].
      apply queue_put_inv in Hput2 as [_ ->]. simpl.
      split; [congruence|]. intros _. apply last_snoc.
  - simpl. split; [by eapply queue_put_wf|].
    apply queue_put_inv in Hput as [_ ->]. simpl.
    split; [done|]. intros _. apply last_snoc.
Qed.

Lemma write_to_agent_queue_bounded_witness :
  let busy :=
    telemetry.mkInterleaving [queue.OtherPut examples.older]
      [queue.OtherGet; queue.OtherPut examples.older] in
  let self :=
    telemetry.set_local_telemetry
      (examples.telemetry_with 2 [examples.older; examples.older]) examples.newer in
  let delivery := telemetry.write_to_agent_queue busy self in
  queue.wf (telemetry.report_channel (fst delivery)) /\
  queue.maxsize (telemetry.report_channel (fst delivery))
  = queue.maxsize (telemetry.report_channel self) /\
  (snd delivery = py.Returned ->
   last (queue.items (telemetry.report_channel (fst delivery)))
   = Some (telemetry._local_telemetry self)).
Proof.
  apply (write_to_agent_queue_bounded
           (telemetry.mkInterleaving [queue.OtherPut examples.older]
              [queue.OtherGet; queue.OtherPut examples.older])
           (telemetry.set_local_telemetry
              (examples.telemetry_with 2 [examples.older; examples.older])
              examples.newer)).
  unfold queue.wf, queue.qsize. simpl. lia.
Defined.

(** ** [WorkerManager]: which registration a name keeps *)

Section Registration.

Variable AgentWorker : Type.
Variable new_AgentWorker :
  Z -> manager.PyObject -> manager.InitParams -> list string -> AgentWorker.

(** X14.  After any series of [add_worker] calls, a name that the registry
    already held keeps the worker it had, and any other name holds the
    worker built from the first argument of the series whose type has this
    name: later registrations under a name never replace the first one, and
    a name under which nothing was registered stays absent. *)
Theorem add_workers_first_wins (self : manager.WorkerManager AgentWorker)
    period init_params actions worker_types key :
  manager.registered_workers
    (manager.add_workers new_AgentWorker self period init_params actions worker_types)
    !! key
  = match manager.registered_workers self !! key with
    | Some worker => Some worker
    | None =>
        (fun t => new_AgentWorker period t init_params actions)
        <$> head (filter (fun t => manager.__class____name__ t = key) worker_types)
    end.
Proof.
  unfold manager.add_workers. revert self.
  induction worker_types as [|t worker_types IH]; intros self; simpl.
  - by destruct (manager.registered_workers self !! key).
  - rewrite IH. unfold manager.add_worker.
    rewrite filter_cons.
    destruct (manager.registered_workers self !! manager.__class____name__ t)
      as [w|] eqn:Hlookup; simpl.
    + destruct (decide (manager.__class____name__ t = key)) as [<-|Hne].
      * by rewrite Hlookup.
      * done.
    + destruct (decide (manager.__class____name__ t = key)) as [<-|Hne].
      * rewrite lookup_insert_eq, Hlookup. done.
      * by rewrite lookup_insert_ne.
Qed.

End Registration.

(** ** Synchronisation with the resource kept by Nuvla *)

Ltac unfold_synchronization :=
  unfold agent.resource_synchronization, agent.update_nuvlaedge_configuration,
    agent.update_periods.

(** Membership in a list of calls that is written out. *)
Ltac settle_calls :=
  cbv zeta;
  repeat first
    [ progress (rewrite ?elem_of_app, ?elem_of_cons, ?elem_of_nil in * )
    | match goal with
      | |- _ /\ _ => split
      | |- _ <-> _ => split
      | |- forall _, _ => intro
      | |- _ -> _ => intro
      | |- ~ _ => intro
      | H : _ /\ _ |- _ => destruct H
      | H : _ \/ _ |- _ => destruct H
      | H : exists _, _ |- _ => destruct H
      | H : is_Some None |- _ => destruct H as [? ?]; discriminate
      | H : False |- _ => destruct H
      | H : Some _ = Some _ |- _ => injection H as H; subst
      | H : agent.edit_period _ _ = agent.edit_period _ _ |- _ =>
          injection H as ? ?; subst
      | H : agent.watch_vpn_credential _ = agent.watch_vpn_credential _ |- _ =>
          injection H as ?; subst
      | H : agent.RaisesKeyError _ = agent.RaisesKeyError _ |- _ =>
          injection H as ?; subst
      end ];
  solve [discriminate | congruence | done | contradiction | eauto 8
        | intuition congruence].

(** X15.  When the state of the resource starts with DECOMMISSION,
    [resource_synchronization] sets the exit event and does nothing else:
    the document file is not written, no period is edited and the VPN is
    not touched.  In any other state (or with no state) the exit event is
    not set and the document file is written first. *)
Theorem resource_synchronization_decommission
    REFRESH_INTERVAL HEARTBEAT_INTERVAL nuvlaedge_resource old_nuvlaedge_resource :
  let synchronization :=
    agent.resource_synchronization REFRESH_INTERVAL HEARTBEAT_INTERVAL
      nuvlaedge_resource old_nuvlaedge_resource in
  if String.prefix "DECOMMISSION" (default "" (agent.state nuvlaedge_resource))
  then synchronization
       = ([agent.get_nuvlaedge_info; agent.exit_event_set], agent.Returns)
  else (agent.exit_event_set ∉ fst synchronization) /\
       exists calls,
         fst synchronization
         = agent.get_nuvlaedge_info
             :: agent.create_nb_document_file nuvlaedge_resource :: calls.
Proof.
  unfold_synchronization.
  destruct (String.prefix _ _); [done|].
  destruct (agent.updated old_nuvlaedge_resource) as [old_updated|];
    [destruct (agent.updated nuvlaedge_resource) as [current_updated|]|];
    repeat case_bool_decide;
    destruct (agent.vpn_server_id nuvlaedge_resource) as [id|];
    try destruct (String.eqb id ""); simpl;
    (split; [settle_calls|by eexists]).
Qed.

(** X16.  [update_nuvlaedge_configuration] commissions the VPN exactly when
    both documents have an [updated] field, the two differ, and the
    [vpn-server-id] of the new document differs from the one of the old
    (absent on both sides counts as equal): a new server id in a document
    whose [updated] field did not change is not acted upon.  It edits the
    periods exactly when the [updated] fields differ: the period of
    telemetry to [refresh-interval] and the period of heartbeat to
    [heartbeat-interval], each with the constant of [CTE] when the document
    lacks the field. *)
Theorem update_nuvlaedge_configuration_calls
    REFRESH_INTERVAL HEARTBEAT_INTERVAL current_nuvlabox_res old_nuvlabox_res :
  let calls :=
    fst (agent.update_nuvlaedge_configuration REFRESH_INTERVAL HEARTBEAT_INTERVAL
           current_nuvlabox_res old_nuvlabox_res) in
  let changed :=
    exists old_updated current_updated,
      agent.updated old_nuvlabox_res = Some old_updated /\
      agent.updated current_nuvlabox_res = Some current_updated /\
      old_updated <> current_updated in
  (agent.commission_vpn ∈ calls <->
   changed /\
   agent.vpn_server_id current_nuvlabox_res <> agent.vpn_server_id old_nuvlabox_res) /\
  (forall name period,
     agent.edit_period name period ∈ calls <->
     changed /\
     ((name = "telemetry" /\
       period = default REFRESH_INTERVAL (agent.refresh_interval current_nuvlabox_res)) \/
      (name = "heartbeat" /\
       period = default HEARTBEAT_INTERVAL
                  (agent.heartbeat_interval current_nuvlabox_res)))).
Proof.
  unfold_synchronization.
  destruct (agent.updated old_nuvlabox_res) as [old_updated|];
    [destruct (agent.updated current_nuvlabox_res) as [current_updated|]|];
    repeat case_bool_decide; simpl; settle_calls.
Qed.

(** X17.  [resource_synchronization] raises [KeyError] exactly when the
    resource is not being decommissioned and the new document or the stored
    one has no [updated] field; the key is [updated], the document file has
    been written by then, and neither a period nor the VPN credential watch
    is reached. *)
Theorem resource_synchronization_key_error
    REFRESH_INTERVAL HEARTBEAT_INTERVAL nuvlaedge_resource old_nuvlaedge_resource key :
  let synchronization :=
    agent.resource_synchronization REFRESH_INTERVAL HEARTBEAT_INTERVAL
      nuvlaedge_resource old_nuvlaedge_resource in
  (snd synchronization = agent.RaisesKeyError key <->
   String.prefix "DECOMMISSION" (default "" (agent.state nuvlaedge_resource)) = false /\
   (agent.updated old_nuvlaedge_resource = None \/
    agent.updated nuvlaedge_resource = None) /\
   key = "updated") /\
  (snd synchronization = agent.RaisesKeyError key ->
   fst synchronization
   = [agent.get_nuvlaedge_info; agent.create_nb_document_file nuvlaedge_resource]).
Proof.
  unfold_synchronization.
  destruct (String.prefix _ _).
  { simpl. settle_calls. }
  destruct (agent.updated old_nuvlaedge_resource) as [old_updated|];
    [destruct (agent.updated nuvlaedge_resource) as [current_updated|]|];
    repeat case_bool_decide;
    destruct (agent.vpn_server_id nuvlaedge_resource) as [id|];
    try destruct (String.eqb id ""); simpl; settle_calls.
Qed.

(** X18.  [resource_synchronization] asks the infrastructure to watch the
    VPN credential of a server exactly when the resource is not being
    decommissioned, both documents have an [updated] field, and the new
    document names this server with a non-empty id; whether the id changed
    plays no part. *)
Theorem resource_synchronization_watches
    REFRESH_INTERVAL HEARTBEAT_INTERVAL nuvlaedge_resource old_nuvlaedge_resource id :
  agent.watch_vpn_credential id
    ∈ fst (agent.resource_synchronization REFRESH_INTERVAL HEARTBEAT_INTERVAL
             nuvlaedge_resource old_nuvlaedge_resource) <->
  String.prefix "DECOMMISSION" (default "" (agent.state nuvlaedge_resource)) = false /\
  is_Some (agent.updated old_nuvlaedge_resource) /\
  is_Some (agent.updated nuvlaedge_resource) /\
  agent.vpn_server_id nuvlaedge_resource = Some id /\
  id <> "".
Proof.
  unfold_synchronization.
  destruct (String.prefix _ _).
  { simpl. settle_calls. }
  destruct (agent.updated old_nuvlaedge_resource) as [old_updated|];
    [destruct (agent.updated nuvlaedge_resource) as [current_updated|]|];
    repeat case_bool_decide;
    destruct (agent.vpn_server_id nuvlaedge_resource) as [id'|];
    try destruct (String.eqb_spec id' ""); simpl; settle_calls.
Qed.

(** ** [initialize_logging] *)

Lemma remove_handlers_all fuel root :
  length (config_logger.handlers root) <= fuel ->
  config_logger.remove_handlers fuel root
  = config_logger.mkRootLogger [] (config_logger.level root).
Proof.
  revert root. induction fuel as [|fuel IH]; intros [hs lvl]; simpl.
  - destruct hs; simpl; [done|lia].
  - intros Hlen. case_bool_decide as Hpos.
    + rewrite IH; [done|]. simpl.
      destruct hs as [|h hs _] using rev_ind; [simpl in Hpos; lia|].
      rewrite removelast_last. rewrite length_app in Hlen. simpl in Hlen. lia.
    + destruct hs; [done|simpl in Hpos; lia].
Qed.

(** The text that [getLevelName] returns for an unregistered name is no
    registered name. *)
Lemma nameToLevel_text name :
  config_logger._nameToLevel ("Level " +:+ name) = None.
Proof. reflexivity. Qed.

Lemma setLevel_getLevelName root env_level :
  config_logger.setLevel root (config_logger.getLevelName env_level)
  = (fun z => config_logger.mkRootLogger (config_logger.handlers root) z)
    <$> config_logger._nameToLevel env_level.
Proof.
  unfold config_logger.getLevelName.
  destruct (config_logger._nameToLevel env_level) eqn:Hname; [done|].
  unfold config_logger.setLevel. by rewrite nameToLevel_text.
Qed.

(** X19.  Without a configuration file, [initialize_logging] leaves the
    root logger with one stream handler of the basic format, whatever
    handlers and level it had before (so a second call changes nothing),
    and with the level DEBUG when [debug] is set; otherwise the level named
    by NUVLAEDGE_LOG_LEVEL, which must be one of the upper-case names the
    logging module registers (any other text, a lower-case name or a number
    included, ends in the [ValueError] of [setLevel]); INFO when the
    variable is empty or not set. *)
Theorem initialize_logging_default fileConfig debug env_level root :
  config_logger.initialize_logging fileConfig "" debug env_level root
  = match (if debug then Some config_logger.DEBUG
           else if String.eqb env_level "" then Some config_logger.INFO
           else config_logger._nameToLevel env_level) with
    | Some lvl =>
        config_logger.Configured
          (config_logger.mkRootLogger
             [config_logger.StreamHandler config_logger.LOGGING_BASIC_FORMAT] lvl)
    | None => config_logger.ValueErrorRaised
    end.
Proof.
  unfold config_logger.initialize_logging.
  rewrite remove_handlers_all by done. simpl.
  destruct debug; [done|].
  destruct (String.eqb env_level ""); simpl; [done|].
  rewrite setLevel_getLevelName. simpl.
  by destruct (config_logger._nameToLevel env_level).
Qed.

(** X20.  With a configuration file that [fileConfig] accepts, the handlers
    are those the file configures, on a root logger whose earlier handlers
    were all removed, but the level the file gives the root logger is
    always overridden: by DEBUG when [debug] is set, else by the level named
    by NUVLAEDGE_LOG_LEVEL, else by INFO. *)
Theorem initialize_logging_overrides_file fileConfig config_file debug env_level
    root configured :
  config_file <> "" ->
  fileConfig config_file
    (config_logger.mkRootLogger [] (config_logger.level root)) = Some configured ->
  config_logger.initialize_logging fileConfig config_file debug env_level root
  = match (if debug then Some config_logger.DEBUG
           else if String.eqb env_level "" then Some config_logger.INFO
           else config_logger._nameToLevel env_level) with
    | Some lvl =>
        config_logger.Configured
          (config_logger.mkRootLogger (config_logger.handlers configured) lvl)
    | None => config_logger.ValueErrorRaised
    end.
Proof.
  intros Hfile Hconfigured.
  unfold config_logger.initialize_logging.
  rewrite remove_handlers_all by done.
  apply String.eqb_neq in Hfile. rewrite Hfile. simpl. rewrite Hconfigured.
  destruct debug; [done|].
  destruct (String.eqb env_level ""); simpl; [done|].
  rewrite setLevel_getLevelName.
  by destruct (config_logger._nameToLevel env_level).
Qed.

Lemma initialize_logging_overrides_file_witness :
  config_logger.initialize_logging examples.file_config
    "/etc/nuvlaedge/agent/config/agent_logger_config.conf" false ""
    (config_logger.mkRootLogger
       [config_logger.StreamHandler "%(message)s"; config_logger.OtherHandler 1] 10)
  = config_logger.Configured
      (config_logger.mkRootLogger [config_logger.OtherHandler 0] config_logger.INFO).
Proof.
  apply (initialize_logging_overrides_file examples.file_config
           "/etc/nuvlaedge/agent/config/agent_logger_config.conf" false ""
           (config_logger.mkRootLogger
              [config_logger.StreamHandler "%(message)s";
               config_logger.OtherHandler 1] 10)
           (config_logger.mkRootLogger [config_logger.OtherHandler 0] 30)).
  - discriminate.
  - reflexivity.
Defined.
